(** * Client error telemetry: the browser reporter and the ingestion contracts

    The development follows [static/client-logger.js]: the value model of
    the script's inputs, the reporter's four functions ([truncate], [send],
    [buildPayload] and the two listeners) over an explicit log of host
    effects, and then the server-side rate limiter and redactor. *)

From Stdlib Require Import ZArith NArith Ascii String DecimalString DecimalNat.
From stdpp Require Import base option list strings gmap fin_maps.

Set Warnings "-register-all".
Local Open Scope string_scope.
Local Open Scope list_scope.

(** The first binding of a key in an ordered list of named fields. *)
Fixpoint assoc {A} (k : string) (fields : list (string * A)) : option A :=
  match fields with
  | [] => None
  | (k', v) :: rest => if String.eqb k k' then Some v else assoc k rest
  end.

(** ** JavaScript values, as far as the reporter observes them *)
Module JS.

(** A string is a sequence of UTF-16 code units; [length] counts them. *)
Abbreviation code_unit := N (only parsing).
Abbreviation jsstring := (list N) (only parsing).

(** An ASCII literal of the script. *)
Definition lit (s : string) : jsstring :=
  N_of_ascii <$> list_ascii_of_string s.

(** What can be thrown. *)
Inductive exn :=
| TypeError
| HostError (name : string).

(** The completion of an evaluation: a value, or an abrupt [throw]. *)
Inductive completion (A : Type) :=
| Normal (a : A)
| Throw (e : exn).
Arguments Normal {A} a.
Arguments Throw {A} e.

(** A double is observed by the script through [ToBoolean] and
    [Number::toString] only; a number carries these two observations. *)
Record number := Number {
  zero_or_nan : bool;
  number_text : jsstring
}.

(** Values. An object carries its data properties (own and inherited,
    flattened) and the outcome of converting it to a string: [Some s]
    when [toString]/[valueOf] yield [s], [None] when they throw or
    are missing (as for [Object.create(null)]). *)
Inductive value :=
| VUndefined
| VNull
| VBoolean (b : bool)
| VNumber (n : number)
| VBigInt (z : Z)
| VString (s : jsstring)
| VSymbol (description : jsstring)
| VObject (callable : bool) (props : list (string * value))
          (to_primitive : option jsstring).

(** An object literal [{ k1: v1, ... }]. *)
Definition object_literal (props : list (string * value)) : value :=
  VObject false props (Some (lit "[object Object]")).

Definition typeof (v : value) : string :=
  match v with
  | VUndefined => "undefined"
  | VNull => "object"
  | VBoolean _ => "boolean"
  | VNumber _ => "number"
  | VBigInt _ => "bigint"
  | VString _ => "string"
  | VSymbol _ => "symbol"
  | VObject callable _ _ => if callable then "function" else "object"
  end.

Definition ToBoolean (v : value) : bool :=
  match v with
  | VUndefined | VNull => false
  | VBoolean b => b
  | VNumber n => negb (zero_or_nan n)
  | VBigInt z => negb (z =? 0)%Z
  | VString s => negb (bool_decide (s = []))
  | VSymbol _ | VObject _ _ _ => true
  end.

(** [String(v)]. *)
Definition String_ (v : value) : completion jsstring :=
  match v with
  | VUndefined => Normal (lit "undefined")
  | VNull => Normal (lit "null")
  | VBoolean b => Normal (lit (if b then "true" else "false"))
  | VNumber n => Normal (number_text n)
  | VBigInt z => Normal (lit (NilZero.string_of_int (Z.to_int z)))
  | VString s => Normal s
  | VSymbol d => Normal (lit "Symbol(" ++ d ++ lit ")")
  | VObject _ _ (Some s) => Normal s
  | VObject _ _ None => Throw TypeError
  end.

(** [v.k] for the property names the script reads ([message], [stack],
    [extra], [error], [reason], [filename], [lineno], [colno]): none of them
    exists on the prototype of a primitive. *)
Definition Get (v : value) (k : string) : completion value :=
  match v with
  | VUndefined | VNull => Throw TypeError
  | VObject _ props _ => Normal (default VUndefined (assoc k props))
  | _ => Normal VUndefined
  end.

(** [a || b] on already evaluated operands. *)
Definition or_ (a b : value) : value := if ToBoolean a then a else b.

End JS.

(** ** static/client-logger.js *)
Module ClientLogger.
Import JS.

Definition ENDPOINT : jsstring := lit "/client-logs".
Definition MAX_MESSAGE_LENGTH : nat := 500.

(** The one-code-unit literal U+2026 that [truncate] appends. *)
Definition U2026 : code_unit := 8230%N.
Definition ELLIPSIS : jsstring := [U2026].

(** [value.slice(b, e)] for [0 <= b <= e]. *)
Definition slice (b e : nat) (s : jsstring) : jsstring :=
  take (e - b) (drop b s).

Definition truncate (v : value) : value :=
  if negb (String.eqb (typeof v) "string") then v
  else match v with
       | VString s =>
           if (MAX_MESSAGE_LENGTH <? length s)%nat
           then VString (slice 0 MAX_MESSAGE_LENGTH s ++ ELLIPSIS)
           else v
       | _ => v
       end.

(** *** The host: what the page and the browser provide *)

Record blob := Blob { blob_parts : list value; blob_type : jsstring }.

Record request_init := RequestInit {
  init_method : jsstring;
  init_headers : list (jsstring * jsstring);
  init_body : value;
  init_keepalive : bool
}.

(** How a promise ends. *)
Inductive promise :=
| Fulfils
| Rejects (e : exn)
| NeverSettles.

Record host := Host {
  location_href : jsstring;
  navigator_userAgent : jsstring;
  (** [new Date().toISOString()] at the time of the call *)
  Date_toISOString : jsstring;
  JSON_stringify : value -> completion value;
  Blob_new : list value -> jsstring -> completion blob;
  (** [None] when [navigator.sendBeacon] is undefined *)
  navigator_sendBeacon : option (jsstring -> blob -> completion bool);
  fetch : jsstring -> request_init -> completion promise
}.

(** Observable effects, in the order they happen. *)
Inductive effect :=
| ReadLocationHref
| ReadUserAgent
| ReadClock
| SendBeacon (url : jsstring) (data : blob)
| Fetch (url : jsstring) (init : request_init)
| UnhandledRejection (e : exn).

Definition is_read (e : effect) : bool :=
  match e with
  | ReadLocationHref | ReadUserAgent | ReadClock => true
  | _ => false
  end.

Definition is_delivery (e : effect) : bool :=
  match e with
  | SendBeacon _ _ | Fetch _ _ => true
  | _ => false
  end.

Definition is_unhandled (e : effect) : bool :=
  match e with
  | UnhandledRejection _ => true
  | _ => false
  end.

(** *** Evaluation: a completion and the effects so far *)

Definition M (A : Type) : Type := list effect -> completion A * list effect.

Definition ret {A} (a : A) : M A := fun log => (Normal a, log).
Definition lift {A} (c : completion A) : M A := fun log => (c, log).
Definition emit (e : effect) : M unit := fun log => (Normal tt, log ++ [e]).

Definition bind {A B} (c : M A) (k : A -> M B) : M B :=
  fun log =>
    match c log with
    | (Normal a, log') => k a log'
    | (Throw e, log') => (Throw e, log')
    end.

(** [try { c } catch (err) { handler }] *)
Definition try_catch {A} (c : M A) (handler : exn -> M A) : M A :=
  fun log =>
    match c log with
    | (Throw e, log') => handler e log'
    | done => done
    end.

Notation "'let*' x ':=' c 'in' k" := (bind c (fun x => k))
  (at level 10, x name, c at level 100, k at level 200).

(** [p.catch(handler)] for a handler that returns normally. *)
Definition promise_catch (p : promise) : promise :=
  match p with
  | Rejects _ => Fulfils
  | other => other
  end.

(** An expression statement whose value is a promise nobody holds: a
    rejection of it is reported as unhandled. *)
Definition discard (p : promise) : M unit :=
  match p with
  | Rejects e => emit (UnhandledRejection e)
  | _ => ret tt
  end.

Section Script.
Variable h : host.

Definition send (payload : value) : M unit :=
  try_catch
    (let* body := lift (JSON_stringify h payload) in
     match navigator_sendBeacon h with
     | Some sendBeacon =>
         let* blob := lift (Blob_new h [body] (lit "application/json")) in
         let* _ := emit (SendBeacon ENDPOINT blob) in
         let* _ := lift (sendBeacon ENDPOINT blob) in
         ret tt
     | None =>
         let init := RequestInit (lit "POST")
                       [(lit "Content-Type", lit "application/json")]
                       body true in
         let* _ := emit (Fetch ENDPOINT init) in
         let* p := lift (fetch h ENDPOINT init) in
         discard (promise_catch p)
     end)
    (fun err => ret tt).

Definition buildPayload (level message metadata : value) : M value :=
  let message' := truncate (or_ message (VString (lit ""))) in
  let* _ := emit ReadLocationHref in
  let url := VString (location_href h) in
  let* _ := emit ReadUserAgent in
  let ua := VString (navigator_userAgent h) in
  let* _ := emit ReadClock in
  let ts := VString (Date_toISOString h) in
  let* has_stack :=
    (if ToBoolean metadata then lift (Get metadata "stack") else ret metadata) in
  let* stack :=
    (if ToBoolean has_stack
     then let* s := lift (Get metadata "stack") in
          let* str := lift (String_ s) in
          ret (VString str)
     else ret (VString (lit ""))) in
  let* has_extra :=
    (if ToBoolean metadata then lift (Get metadata "extra") else ret metadata) in
  let* extra :=
    (if ToBoolean has_extra then lift (Get metadata "extra") else ret VUndefined) in
  ret (object_literal
         [("level", level);
          ("message", message');
          ("url", url);
          ("ua", ua);
          ("ts", ts);
          ("stack", truncate stack);
          ("extra", extra)]).

(** The payload the [error] listener builds (lines 45-52). *)
Definition error_payload (event : value) : M value :=
  let* msg := lift (Get event "message") in
  let message := or_ msg (VString (lit "Script error")) in
  let* err := lift (Get event "error") in
  let* stack := (if ToBoolean err then lift (Get err "stack") else ret err) in
  let* filename := lift (Get event "filename") in
  let* lineno := lift (Get event "lineno") in
  let* colno := lift (Get event "colno") in
  buildPayload (VString (lit "error")) message
    (object_literal
       [("stack", stack);
        ("extra", object_literal
                    [("filename", filename);
                     ("lineno", lineno);
                     ("colno", colno)])]).

Definition on_error (event : value) : M unit :=
  let* payload := error_payload event in
  send payload.

(** The payload the [unhandledrejection] listener builds (lines 57-67);
    [event.reason] is a data property, read once here. *)
Definition rejection_payload (event : value) : M value :=
  let message := VString (lit "Unhandled promise rejection") in
  let stack := VString (lit "") in
  let* reason := lift (Get event "reason") in
  let* picked :=
    (if ToBoolean reason then
       let* message :=
         (if String.eqb (typeof reason) "string" then ret reason
          else
            let* m := lift (Get reason "message") in
            if ToBoolean m then lift (Get reason "message") else ret message) in
       let* has_stack :=
         (if ToBoolean reason then lift (Get reason "stack") else ret reason) in
       let* stack :=
         (if ToBoolean has_stack then lift (Get reason "stack")
          else ret (VString (lit ""))) in
       ret (message, stack)
     else ret (message, stack)) in
  let message := fst picked in
  let stack := snd picked in
  buildPayload (VString (lit "error")) message
    (object_literal [("stack", stack)]).

Definition on_unhandledrejection (event : value) : M unit :=
  let* payload := rejection_payload event in
  send payload.

End Script.

(** *** Observations the statements below are written with *)

(** [v.k] where the read cannot throw. *)
Definition field (v : value) (k : string) : value :=
  match Get v k with
  | Normal x => x
  | Throw _ => VUndefined
  end.

(** The property names of an object, in definition order. *)
Definition keys (v : value) : list string :=
  match v with
  | VObject _ props _ => fst <$> props
  | _ => []
  end.

(** How many times a code unit occurs in a string. *)
Definition occurrences (c : code_unit) (s : jsstring) : nat :=
  length (filter (fun x => x = c) s).

(** The operand [metadata && metadata.stack] of the builder's stack field. *)
Definition stack_operand (metadata : value) : value :=
  if ToBoolean metadata then field metadata "stack" else metadata.

(** The operand [metadata && metadata.extra] of the builder's extra field. *)
Definition extra_operand (metadata : value) : value :=
  if ToBoolean metadata then field metadata "extra" else metadata.

(** The text of the builder's stack field,
    [metadata && metadata.stack ? String(metadata.stack) : ''], or the
    exception its conversion throws. *)
Definition stack_text (metadata : value) : completion jsstring :=
  if ToBoolean (stack_operand metadata)
  then String_ (field metadata "stack")
  else Normal (lit "").

(** The builder's extra field,
    [metadata && metadata.extra ? metadata.extra : undefined]. *)
Definition extra_value (metadata : value) : value :=
  if ToBoolean (extra_operand metadata) then field metadata "extra" else VUndefined.

(** The three reads one [buildPayload] call makes. *)
Definition payload_reads : list effect :=
  [ReadLocationHref; ReadUserAgent; ReadClock].

(** The options object of the fallback [fetch] call. *)
Definition fetch_init (body : value) : request_init :=
  RequestInit (lit "POST") [(lit "Content-Type", lit "application/json")] body true.

(** The effects one [send] adds to the log, by what the host does. *)
Definition sent (h : host) (payload : value) : list effect :=
  match JSON_stringify h payload with
  | Throw _ => []
  | Normal body =>
      match navigator_sendBeacon h with
      | Some _ =>
          match Blob_new h [body] (lit "application/json") with
          | Normal blob => [SendBeacon ENDPOINT blob]
          | Throw _ => []
          end
      | None => [Fetch ENDPOINT (fetch_init body)]
      end
  end.

(** The number of delivery attempts among some effects. *)
Definition deliveries (added : list effect) : nat :=
  length (filter (fun e => is_delivery e = true) added).

(** A page to run the script on: no [sendBeacon], a [fetch] that rejects. *)
Definition offline_page : host :=
  {| location_href := lit "https://school.example/attendance";
     navigator_userAgent := lit "Mozilla/5.0";
     Date_toISOString := lit "2024-05-06T07:08:09.010Z";
     JSON_stringify := fun _ => Normal (VString (lit "{}"));
     Blob_new := fun parts type => Normal (Blob parts type);
     navigator_sendBeacon := None;
     fetch := fun _ _ => Normal (Rejects (HostError "NetworkError")) |}.

(** The message the [unhandledrejection] listener passes on for a reason
    (lines 57-64). *)
Definition picked_message (reason : value) : value :=
  if ToBoolean reason then
    if String.eqb (typeof reason) "string" then reason
    else if ToBoolean (field reason "message") then field reason "message"
         else VString (lit "Unhandled promise rejection")
  else VString (lit "Unhandled promise rejection").

(** The stack it passes on (lines 58 and 65). *)
Definition picked_stack (reason : value) : value :=
  if ToBoolean reason then
    if ToBoolean (field reason "stack") then field reason "stack"
    else VString (lit "")
  else VString (lit "").

(** The metadata the [error] listener passes on (lines 46-51). *)
Definition error_metadata (event : value) : value :=
  object_literal
    [("stack", if ToBoolean (field event "error")
               then field (field event "error") "stack"
               else field event "error");
     ("extra", object_literal
                 [("filename", field event "filename");
                  ("lineno", field event "lineno");
                  ("colno", field event "colno")])].

(** A page whose [sendBeacon] exists and refuses to queue the data. *)
Definition beacon_page : host :=
  {| location_href := lit "https://school.example/attendance";
     navigator_userAgent := lit "Mozilla/5.0";
     Date_toISOString := lit "2024-05-06T07:08:09.010Z";
     JSON_stringify := fun _ => Normal (VString (lit "{}"));
     Blob_new := fun parts type => Normal (Blob parts type);
     navigator_sendBeacon := Some (fun _ _ => Normal false);
     fetch := fun _ _ => Normal Fulfils |}.

(** The event of an error in a cross-origin script: no error object. *)
Definition script_error_event : value :=
  object_literal
    [("message", VString (lit "Script error."));
     ("filename", VString (lit ""));
     ("lineno", VNumber (Number true (lit "0")));
     ("colno", VNumber (Number true (lit "0")));
     ("error", VNull)].

(** The event of a rejection with an [Error]-like reason. *)
Definition rejection_event (message stack : jsstring) : value :=
  object_literal
    [("reason", VObject false [("message", VString message); ("stack", VString stack)]
                  (Some (lit "Error: " ++ message)))].

(** *** String conversions that run the value's own code

    [String_] gives the outcome of a conversion. Converting an object runs
    the object's own [Symbol.toPrimitive], [toString] or [valueOf] method,
    and that code can do anything; here it is followed by the effects it
    adds to the log. *)

(** The values whose string conversion runs code of their own. *)
Definition runs_code (v : value) : bool :=
  match v with
  | VObject _ _ _ => true
  | _ => false
  end.

Section Conversions.
Variable h : host.
(** The effects of the conversion method of an object. *)
Variable conversion_effects : value -> list effect.

(** [String(v)], with the effects of the method it runs. *)
Definition String_running (v : value) : M jsstring :=
  if runs_code v
  then fun log => (String_ v, log ++ conversion_effects v)
  else lift (String_ v).

(** [buildPayload] (lines 32-42), with the conversion of line 39 running
    the stack's method. *)
Definition buildPayload_running (level message metadata : value) : M value :=
  let message' := truncate (or_ message (VString (lit ""))) in
  let* _ := emit ReadLocationHref in
  let url := VString (location_href h) in
  let* _ := emit ReadUserAgent in
  let ua := VString (navigator_userAgent h) in
  let* _ := emit ReadClock in
  let ts := VString (Date_toISOString h) in
  let* has_stack :=
    (if ToBoolean metadata then lift (Get metadata "stack") else ret metadata) in
  let* stack :=
    (if ToBoolean has_stack
     then let* s := lift (Get metadata "stack") in
          let* str := String_running s in
          ret (VString str)
     else ret (VString (lit ""))) in
  let* has_extra :=
    (if ToBoolean metadata then lift (Get metadata "extra") else ret metadata) in
  let* extra :=
    (if ToBoolean has_extra then lift (Get metadata "extra") else ret VUndefined) in
  ret (object_literal
         [("level", level);
          ("message", message');
          ("url", url);
          ("ua", ua);
          ("ts", ts);
          ("stack", truncate stack);
          ("extra", extra)]).

End Conversions.

(** The effects of the conversion [String(metadata.stack)] of line 39: it
    is evaluated for a truthy stack, and runs code for an object. *)
Definition stack_conversion (conversion_effects : value -> list effect)
    (metadata : value) : list effect :=
  if ToBoolean (stack_operand metadata) && runs_code (field metadata "stack")
  then conversion_effects (field metadata "stack")
  else [].

(** A stack whose [toString] reports to a tracker before it answers:
    [{ toString() { fetch('/track', init); return 'trace' } }]. *)
Definition tracking_stack : value := VObject false [] (Some (lit "trace")).

Definition tracking_conversion (v : value) : list effect :=
  if runs_code v then [Fetch (lit "/track") (fetch_init VUndefined)] else [].

End ClientLogger.

(** ** Rate limiter (server side) *)
Module RateLimiter.

Section Config.
(** Per-window event limit and window size of the configuration. *)
Variable limit : nat.
Variable windowSize : Z.

(** Modelled from the spec: the RateLimitBucket store is absent from the
    sources; it is keyed by source identifier and holds the ordered
    timestamps of the admitted events, an absent bucket standing for no
    recent activity. *)
Definition bucket (st : gmap string (list Z)) (sourceId : string) : list Z :=
  default [] (st !! sourceId).

(** Modelled from the spec: the pruning step of [admit] is absent from the
    sources; timestamps older than [now - windowSize] are discarded. *)
Definition retained (now : Z) (ts : list Z) : list Z :=
  filter (fun t => (now - windowSize <= t)%Z) ts.

(** Modelled from the spec: [admit(sourceId, now)] is absent from the
    sources; after pruning, a remaining count below [limit] records [now]
    and admits, otherwise the event is dropped without being recorded.
    (Named [admit_]: the bare word is a tactic.) *)
Definition admit_ (st : gmap string (list Z)) (sourceId : string) (now : Z)
  : bool * gmap string (list Z) :=
  let kept := retained now (bucket st sourceId) in
  if decide (length kept < limit)
  then (true, <[sourceId := kept ++ [now]]> st)
  else (false, <[sourceId := kept]> st).

(** Modelled from the spec: the periodic sweep is absent from the sources;
    it prunes every bucket and evicts the ones left empty. *)
Definition sweep (st : gmap string (list Z)) (now : Z) : gmap string (list Z) :=
  omap (fun ts => match retained now ts with
                  | [] => None
                  | kept => Some kept
                  end) st.

(** The operations on the shared store, serialized. *)
Inductive op :=
| AdmitOp (sourceId : string) (now : Z)
| SweepOp (now : Z).

Definition step (st : gmap string (list Z)) (o : op) : gmap string (list Z) :=
  match o with
  | AdmitOp sourceId now => snd (admit_ st sourceId now)
  | SweepOp now => sweep st now
  end.

Definition run (st : gmap string (list Z)) (ops : list op) : gmap string (list Z) :=
  foldl step st ops.

(** A sequence of [admit] calls, each on the state the previous one left;
    the decisions come back in call order. *)
Fixpoint admit_all (st : gmap string (list Z)) (calls : list (string * Z))
  : list bool * gmap string (list Z) :=
  match calls with
  | [] => ([], st)
  | (sourceId, now) :: rest =>
      let r := admit_ st sourceId now in
      let rs := admit_all (snd r) rest in
      (fst r :: fst rs, snd rs)
  end.

(** The decisions that belong to the calls of one source. *)
Fixpoint decisions_of (sourceId : string) (calls : list (string * Z))
  (decisions : list bool) : list bool :=
  match calls, decisions with
  | (s, _) :: calls', d :: decisions' =>
      if String.eqb s sourceId
      then d :: decisions_of sourceId calls' decisions'
      else decisions_of sourceId calls' decisions'
  | _, _ => []
  end.

(** The call times of one source. *)
Definition times_of (sourceId : string) (calls : list (string * Z)) : list Z :=
  snd <$> filter (fun c => fst c = sourceId) calls.

(** [t] lies in the window that opens at [lo]. *)
Definition in_window (lo t : Z) : Prop := (lo <= t <= lo + windowSize)%Z.

(** At time [now] the source has been idle for longer than one window:
    every timestamp it still holds is older than [now - windowSize]. *)
Definition idle (st : gmap string (list Z)) (sourceId : string) (now : Z) : Prop :=
  Forall (fun t => (t < now - windowSize)%Z) (bucket st sourceId).

(** No bucket holds more timestamps than the limit. *)
Definition bounded (st : gmap string (list Z)) : Prop :=
  forall k : string, length (bucket st k) <= limit.

(** The timestamps of [ts] at or after [lo]. *)
Definition since (lo : Z) (ts : list Z) : list Z :=
  filter (fun t => (lo <= t)%Z) ts.

(** Every timestamp is either in the window that opens at [lo] or older
    than any window that a call in it looks back on. *)
Definition settled (lo : Z) (ts : list Z) : Prop :=
  Forall (fun t => (t < lo - windowSize)%Z \/ in_window lo t) ts.

(** How many of the decisions admit. *)
Definition admitted (decisions : list bool) : nat :=
  length (filter (fun d => d = true) decisions).

End Config.

(** A burst of three reports of one address and one of another, with a
    limit of two per 60 seconds. *)
Definition sample_calls : list (string * Z) :=
  [("10.0.0.1", 0%Z); ("10.0.0.2", 1%Z); ("10.0.0.1", 59%Z); ("10.0.0.1", 30%Z)].

(** A store that remembers two reports of an address, at seconds 0 and 5. *)
Definition sample_store : gmap string (list Z) :=
  {["10.0.0.1" := [0%Z; 5%Z]]}.

End RateLimiter.

(** ** Redactor (server side) *)
Module Redactor.

(** Modelled from the spec: the structured payload type is absent from the
    sources; nested mappings and sequences over scalars, a mapping keeping
    its fields in order. *)
Inductive json :=
| JNull
| JBool (b : bool)
| JNumber (literal : string)
| JString (s : string)
| JArray (items : list json)
| JObject (fields : list (string * json)).

(** The fixed redaction marker (OBSERVABILITY.md). *)
Definition REDACTED : json := JString "[REDACTED]".

Definition lower_ascii (c : ascii) : ascii :=
  let n := nat_of_ascii c in
  if ((65 <=? n) && (n <=? 90))%nat then ascii_of_nat (n + 32) else c.

Fixpoint lower (s : string) : string :=
  match s with
  | EmptyString => EmptyString
  | String c rest => String (lower_ascii c) (lower rest)
  end.

(** Modelled from the spec: membership in the SensitiveFieldSet is absent
    from the sources; names compare case-insensitively. *)
Definition is_sensitive (sensitiveFields : list string) (k : string) : bool :=
  bool_decide (lower k ∈ lower <$> sensitiveFields).

(** Modelled from the spec: [redact(value, sensitiveFields)] is absent from
    the sources; it recurses over mappings and sequences, replaces the value
    of every sensitive key by the marker whatever its type, and stops at the
    depth cap, passing what lies past it through unchanged. *)
Fixpoint redact (max_depth : nat) (value : json) (sensitiveFields : list string) : json :=
  match max_depth with
  | O => value
  | S depth =>
      match value with
      | JObject fields =>
          JObject ((fun kv : string * json =>
                      (fst kv,
                       if is_sensitive sensitiveFields (fst kv) then REDACTED
                       else redact depth (snd kv) sensitiveFields)) <$> fields)
      | JArray items =>
          JArray ((fun item => redact depth item sensitiveFields) <$> items)
      | scalar => scalar
      end
  end.

(** What [redact] puts under the key [k] of a mapping that held [x]. *)
Definition scrub (sensitiveFields : list string) (depth : nat) (k : string)
    (x : json) : json :=
  if is_sensitive sensitiveFields k then REDACTED
  else redact depth x sensitiveFields.

(** Positions in a payload: a key of a mapping or an index of a sequence. *)
Inductive selector :=
| Key (k : string)
| Index (i : nat).

Fixpoint lookup_path (v : json) (path : list selector) : option json :=
  match path with
  | [] => Some v
  | Key k :: path' =>
      match v with
      | JObject fields => assoc k fields ≫= fun x => lookup_path x path'
      | _ => None
      end
  | Index i :: path' =>
      match v with
      | JArray items => items !! i ≫= fun x => lookup_path x path'
      | _ => None
      end
  end.

(** Replaces the value of the first binding of [k]. *)
Fixpoint assoc_set (k : string) (y : json) (fields : list (string * json))
  : list (string * json) :=
  match fields with
  | [] => []
  | (k', v) :: rest =>
      if String.eqb k k' then (k', y) :: rest else (k', v) :: assoc_set k y rest
  end.

(** The payload with the value at [path] replaced by [f] of it. *)
Fixpoint alter_path (f : json -> json) (v : json) (path : list selector) : json :=
  match path with
  | [] => f v
  | Key k :: path' =>
      match v with
      | JObject fields =>
          match assoc k fields with
          | Some x => JObject (assoc_set k (alter_path f x path') fields)
          | None => v
          end
      | _ => v
      end
  | Index i :: path' =>
      match v with
      | JArray items =>
          match items !! i with
          | Some x => JArray (<[i := alter_path f x path']> items)
          | None => v
          end
      | _ => v
      end
  end.

(** No key on the path is itself sensitive. *)
Definition public_path (sensitiveFields : list string) (path : list selector) : bool :=
  forallb (fun s => match s with
                    | Key k => negb (is_sensitive sensitiveFields k)
                    | Index _ => true
                    end) path.

(** A payload that holds [inner] under [n] nested mappings. *)
Fixpoint nest (n : nat) (inner : json) : json :=
  match n with
  | O => inner
  | S n' => JObject [("nested", nest n' inner)]
  end.

Definition nest_path (n : nat) : list selector := replicate n (Key "nested").

(** [x] stands somewhere in [v]. *)
Definition occurs (x v : json) : Prop :=
  exists path, lookup_path v path = Some x.

(** The redaction property with no bound on the depth: under a depth cap
    of [max_depth], whatever value a sensitive key holds, at whatever
    depth, the output holds the marker there and the value nowhere. *)
Definition redacts_everywhere (max_depth : nat) : Prop :=
  forall (sensitiveFields : list string) (v : json) (path : list selector)
         (k : string) (x : json),
    public_path sensitiveFields path = true ->
    is_sensitive sensitiveFields k = true ->
    lookup_path v (path ++ [Key k]) = Some x ->
    lookup_path (redact max_depth v sensitiveFields) (path ++ [Key k]) = Some REDACTED
    /\ ~ occurs x (redact max_depth v sensitiveFields).

(** The extra context of the end-to-end scenario. *)
Definition sample_context : json :=
  JObject [("password", JString "abc");
           ("nested", JObject [("Token", JString "xyz")]);
           ("attempts", JArray [JObject [("token", JNumber "7")]])].

End Redactor.

(** ** The attendance page script: the lesson list, the load guard and the
    save and update chains *)
Module Attendance.
Import JS.

(** The UTF-16 code units of UTF-8 bytes (literals with Turkish letters). *)
Fixpoint utf16 (bytes : list N) : jsstring :=
  match bytes with
  | [] => []
  | b :: rest =>
      if (b <? 128)%N then b :: utf16 rest
      else if (b <? 224)%N then
        match rest with
        | c :: rest' => ((b - 192) * 64 + (c - 128))%N :: utf16 rest'
        | [] => [65533%N]
        end
      else
        match rest with
        | c :: d :: rest' =>
            ((b - 224) * 4096 + (c - 128) * 64 + (d - 128))%N :: utf16 rest'
        | _ => [65533%N]
        end
  end.

(** A string literal of the script. *)
Definition text (s : string) : jsstring :=
  utf16 (N_of_ascii <$> list_ascii_of_string s).

(** The double quote inside the template of [showMessage]. *)
Definition QUOTE : jsstring := [34%N].

(** [String(i)] for a loop counter. *)
Definition decimal (i : nat) : jsstring :=
  lit (NilZero.string_of_uint (Nat.to_uint i)).

(** The literal [0]. *)
Definition ZERO : value := VNumber (Number true (lit "0")).

(** [v === 0] for a [v] that is not NaN, as [data.lessons || 0] is. *)
Definition is_zero (v : value) : bool :=
  match v with
  | VNumber n => zero_or_nan n
  | _ => false
  end.

(** [prefix + v]: for the values that reach it here (JSON data, strings and
    error objects) the conversion is that of [String]; a symbol throws. *)
Definition plus (prefix : jsstring) (v : value) : completion jsstring :=
  match v with
  | VSymbol _ => Throw TypeError
  | _ => match String_ v with
         | Normal s => Normal (prefix ++ s)
         | Throw e => Throw e
         end
  end.

(** An [option] element as the script fills it. *)
Record option_element := OptionElement {
  option_value : jsstring;
  option_textContent : jsstring
}.

(** What the script writes on the page, and the URLs it has fetched. A row
    of the attendance table stands for the [tr] element built for it. The
    message box is followed by the string last assigned to
    [messageDiv.innerHTML]: the page parses that string as HTML, so what it
    displays is the assigned text only as far as the text carries no markup
    of its own. *)
Record page := Page {
  lessonSelect_options : list option_element;
  messageDiv_assigned : jsstring;
  attendanceSection_display : jsstring;
  attendanceTableBody : list value;
  saveButton_display : jsstring;
  updateButton_display : jsstring;
  fetched : list jsstring
}.

Definition set_options (options : list option_element) (pg : page) : page :=
  Page options (messageDiv_assigned pg) (attendanceSection_display pg)
    (attendanceTableBody pg) (saveButton_display pg) (updateButton_display pg)
    (fetched pg).

Definition set_message (html : jsstring) (pg : page) : page :=
  Page (lessonSelect_options pg) html (attendanceSection_display pg)
    (attendanceTableBody pg) (saveButton_display pg) (updateButton_display pg)
    (fetched pg).

Definition set_section (display : jsstring) (pg : page) : page :=
  Page (lessonSelect_options pg) (messageDiv_assigned pg) display
    (attendanceTableBody pg) (saveButton_display pg) (updateButton_display pg)
    (fetched pg).

Definition set_rows (rows : list value) (pg : page) : page :=
  Page (lessonSelect_options pg) (messageDiv_assigned pg)
    (attendanceSection_display pg) rows (saveButton_display pg)
    (updateButton_display pg) (fetched pg).

Definition set_buttons (save update : jsstring) (pg : page) : page :=
  Page (lessonSelect_options pg) (messageDiv_assigned pg)
    (attendanceSection_display pg) (attendanceTableBody pg) save update (fetched pg).

(** [fetch(url)] *)
Definition fetch_get (url : jsstring) (pg : page) : page :=
  Page (lessonSelect_options pg) (messageDiv_assigned pg)
    (attendanceSection_display pg) (attendanceTableBody pg) (saveButton_display pg)
    (updateButton_display pg) (fetched pg ++ [url]).

(** [showMessage] (lines 291-293): the template string, with [msg] and
    [type] inserted as they are, unescaped, is assigned to
    [messageDiv.innerHTML]. *)
Definition showMessage (msg type : jsstring) (pg : page) : page :=
  set_message
    (lit "<div class=" ++ QUOTE ++ lit "alert alert-" ++ type ++ QUOTE
       ++ lit " role=" ++ QUOTE ++ lit "alert" ++ QUOTE ++ lit ">"
       ++ msg ++ lit "</div>") pg.

Definition clearMessage (pg : page) : page := set_message [] pg.

(** The string [showMessage] assigns for a danger message. *)
Definition danger_alert (msg : jsstring) : jsstring :=
  lit "<div class=" ++ QUOTE ++ lit "alert alert-" ++ lit "danger" ++ QUOTE
    ++ lit " role=" ++ QUOTE ++ lit "alert" ++ QUOTE ++ lit ">"
    ++ msg ++ lit "</div>".

(** The synchronous part of [updateLessonOptions] (lines 114-122), on the
    values read from the class select and the date input. *)
Definition updateLessonOptions (clsId dateStr : jsstring) (pg : page) : page :=
  let pg := set_options [] pg in
  if negb (ToBoolean (VString clsId)) || negb (ToBoolean (VString dateStr)) then pg
  else fetch_get (lit "/api/schedule?classroom_id=" ++ clsId
                    ++ lit "&date=" ++ dateStr) pg.

(** The synchronous part of the load button's listener (lines 142-151). *)
Definition load_click (clsId dateStr lessonNo : jsstring) (pg : page) : page :=
  if negb (ToBoolean (VString clsId)) || negb (ToBoolean (VString dateStr))
     || negb (ToBoolean (VString lessonNo))
  then showMessage (text "Lütfen sınıf, tarih ve ders numarası seçiniz.")
         (lit "warning") pg
  else fetch_get (lit "/api/students?classroom_id=" ++ clsId) pg.

(** *** Promise chains *)

(** How a promise has settled. *)
Inductive settled (A : Type) :=
| Fulfilled (a : A)
| Rejected (reason : value).
Arguments Fulfilled {A} a.
Arguments Rejected {A} reason.

(** [p.then(f)]: [f] returns a value or a promise, or throws. *)
Definition then_ {A B} (p : settled A) (f : A -> page -> settled B * page)
    (pg : page) : settled B * page :=
  match p with
  | Fulfilled a => f a pg
  | Rejected reason => (Rejected reason, pg)
  end.

(** [p.catch(f)] *)
Definition catch_ {A} (p : settled A) (f : value -> page -> settled A * page)
    (pg : page) : settled A * page :=
  match p with
  | Fulfilled a => (Fulfilled a, pg)
  | Rejected reason => f reason pg
  end.

(** What [resp.json()] settles to. *)
Inductive json_result :=
| Parsed (data : value)
| Malformed (err : value).

(** A response, by its status and body; [resp.ok] is a 2xx status. *)
Record response := Response { status : Z; body : json_result }.

Definition ok (resp : response) : bool :=
  ((200 <=? status resp) && (status resp <=? 299))%Z.

Definition resp_json (resp : response) : settled value :=
  match body resp with
  | Parsed data => Fulfilled data
  | Malformed err => Rejected err
  end.

(** How a [fetch] ends: a rejection, or a response. *)
Inductive exchange :=
| Unreachable (err : value)
| Responded (resp : response).

Definition fetch_result (x : exchange) : settled response :=
  match x with
  | Unreachable err => Rejected err
  | Responded resp => Fulfilled resp
  end.

(** [data.lessons] and [data.error] are read with [Get]: no prototype of a
    primitive has a property of either name. *)

Section Engine.
(** The error object the engine throws for an exception of the script. *)
Variable error_object : exn -> value.
(** The number of passes of the loop of lines 130-135 for the bound [v]:
    how many of [i = 1, 2, ...] satisfy [i <= v] before the first that does
    not. The chain below follows the page for the bounds at which the loop
    ends; it does not end for Infinity and for a number from 2^53 on (see
    [passes] for the bounds that are numbers). *)
Variable upto : value -> nat.

(** A callback that throws rejects the promise of its [then]. *)
Definition settle {A} (c : completion A) : settled A :=
  match c with
  | Normal a => Fulfilled a
  | Throw e => Rejected (error_object e)
  end.

(** The chain on the schedule request (lines 122-138). *)
Definition schedule_chain (x : exchange) (pg : page) : settled unit * page :=
  let r1 := then_ (fetch_result x) (fun resp pg => (resp_json resp, pg)) pg in
  let r2 :=
    then_ (fst r1)
      (fun data pg =>
         match Get data "lessons" with
         | Throw e => (Rejected (error_object e), pg)
         | Normal lessons =>
             let lessonCount := or_ lessons ZERO in
             if is_zero lessonCount
             then (Fulfilled tt,
                   showMessage
                     (text "Seçilen sınıf için belirtilen günde ders bulunmamaktadır.")
                     (lit "warning") pg)
             else
               let pg := clearMessage pg in
               (Fulfilled tt,
                set_options
                  (lessonSelect_options pg
                     ++ ((fun i => OptionElement (decimal i) (decimal i))
                           <$> seq 1 (upto lessonCount))) pg)
         end)
      (snd r1) in
  catch_ (fst r2)
    (fun err pg =>
       match plus (text "Ders programı alınamadı: ") err with
       | Normal msg => (Fulfilled tt, showMessage msg (lit "danger") pg)
       | Throw e => (Rejected (error_object e), pg)
       end)
    (snd r2).

(** The chain on the save request (lines 248-263). *)
Definition save_chain (x : exchange) (pg : page) : settled unit * page :=
  let r1 :=
    then_ (fetch_result x)
      (fun resp pg =>
         if (status resp =? 409)%Z then
           then_ (resp_json resp)
             (fun data pg =>
                match Get data "error" with
                | Normal err => (Rejected err, pg)
                | Throw e => (Rejected (error_object e), pg)
                end) pg
         else if negb (ok resp) then
           then_ (resp_json resp)
             (fun data pg =>
                match Get data "error" with
                | Normal err =>
                    (Rejected (or_ err (VString (lit "Bilinmeyen hata"))), pg)
                | Throw e => (Rejected (error_object e), pg)
                end) pg
         else (resp_json resp, pg))
      pg in
  let r2 :=
    then_ (fst r1)
      (fun _ pg =>
         let pg := showMessage (text "Yoklama başarıyla eklendi.") (lit "success") pg in
         (Fulfilled tt, set_buttons (lit "none") (lit "inline-block") pg))
      (snd r1) in
  catch_ (fst r2)
    (fun err pg =>
       match plus (lit "Yoklama eklenemedi: ") err with
       | Normal msg => (Fulfilled tt, showMessage msg (lit "danger") pg)
       | Throw e => (Rejected (error_object e), pg)
       end)
    (snd r2).

(** The chain on the update request (lines 278-287). *)
Definition update_chain (x : exchange) (pg : page) : settled unit * page :=
  let r1 :=
    then_ (fetch_result x)
      (fun resp pg =>
         if negb (ok resp) then
           then_ (resp_json resp)
             (fun data pg =>
                match Get data "error" with
                | Normal err =>
                    (Rejected (or_ err (VString (lit "Bilinmeyen hata"))), pg)
                | Throw e => (Rejected (error_object e), pg)
                end) pg
         else (resp_json resp, pg))
      pg in
  let r2 :=
    then_ (fst r1)
      (fun _ pg =>
         (Fulfilled tt,
          showMessage (text "Yoklama başarıyla güncellendi.") (lit "success") pg))
      (snd r1) in
  catch_ (fst r2)
    (fun err pg =>
       match plus (text "Yoklama güncellenemedi: ") err with
       | Normal msg => (Fulfilled tt, showMessage msg (lit "danger") pg)
       | Throw e => (Rejected (error_object e), pg)
       end)
    (snd r2).

(** [attData.length > 0] (see [reads_length] for the lengths that are
    numbers). *)
Variable has_records : value -> bool.
(** The table the response callback leaves (lines 158-163 and 180-219: the
    map of the records by student and [renderAttendanceTable]), from the
    students, the records and the rows before; it may throw part way. *)
Variable renderAttendanceTable :
  value -> value -> list value -> completion unit * list value.

(** The chain on the students request (lines 151-153 and 175-176); its
    second callback starts the attendance request and returns nothing. *)
Definition students_chain (clsId dateStr lessonNo : jsstring) (x : exchange)
    (pg : page) : settled unit * page :=
  let r1 := then_ (fetch_result x) (fun resp pg => (resp_json resp, pg)) pg in
  let r2 :=
    then_ (fst r1)
      (fun students pg =>
         (Fulfilled tt,
          fetch_get (lit "/api/attendance?classroom_id=" ++ clsId ++ lit "&date="
                       ++ dateStr ++ lit "&lesson_no=" ++ lessonNo) pg))
      (snd r1) in
  catch_ (fst r2)
    (fun err pg =>
       match plus (text "Öğrenciler yüklenirken hata oluştu: ") err with
       | Normal msg => (Fulfilled tt, showMessage msg (lit "danger") pg)
       | Throw e => (Rejected (error_object e), pg)
       end)
    (snd r2).

(** The chain on the attendance request (lines 155-174); it has no
    [catch], and the students chain does not hold its promise. *)
Definition attendance_chain (students : value) (x : exchange) (pg : page)
    : settled unit * page :=
  let r1 := then_ (fetch_result x) (fun resp pg => (resp_json resp, pg)) pg in
  then_ (fst r1)
    (fun attData pg =>
       match renderAttendanceTable students attData (attendanceTableBody pg) with
       | (Throw e, rows) => (Rejected (error_object e), set_rows rows pg)
       | (Normal _, rows) =>
           let pg := set_section (lit "block") (set_rows rows pg) in
           if has_records attData
           then (Fulfilled tt, set_buttons (lit "none") (lit "inline-block") pg)
           else (Fulfilled tt, set_buttons (lit "inline-block") (lit "none") pg)
       end)
    (snd r1).

(** What happens on the page, one listener or one settled request at a
    time. *)
Inductive event :=
| LessonsRequested (clsId dateStr : jsstring)
| ScheduleSettled (x : exchange)
| LoadClicked (clsId dateStr lessonNo : jsstring)
| StudentsSettled (clsId dateStr lessonNo : jsstring) (x : exchange)
| AttendanceSettled (students : value) (x : exchange)
| SaveSettled (x : exchange)
| UpdateSettled (x : exchange).

Definition step (pg : page) (ev : event) : page :=
  match ev with
  | LessonsRequested clsId dateStr => updateLessonOptions clsId dateStr pg
  | ScheduleSettled x => snd (schedule_chain x pg)
  | LoadClicked clsId dateStr lessonNo => load_click clsId dateStr lessonNo pg
  | StudentsSettled clsId dateStr lessonNo x =>
      snd (students_chain clsId dateStr lessonNo x pg)
  | AttendanceSettled students x => snd (attendance_chain students x pg)
  | SaveSettled x => snd (save_chain x pg)
  | UpdateSettled x => snd (update_chain x pg)
  end.

End Engine.

(** The save and the update button are not both visible. *)
Definition one_button (pg : page) : Prop :=
  saveButton_display pg = lit "none" \/ updateButton_display pg = lit "none".

(** The options [1 .. n] of a lesson list. *)
Definition lesson_options (n : nat) : list option_element :=
  (fun i => OptionElement (decimal i) (decimal i)) <$> seq 1 n.

(** The reason converts to a string: it is no symbol and no object without
    a string conversion. *)
Definition printable (v : value) : Prop :=
  exists s, forall prefix, plus prefix v = Normal (prefix ++ s).

(** The exchange saved the attendance as far as the script can tell: a 2xx
    response whose body is JSON. *)
Definition accepted (x : exchange) : bool :=
  match x with
  | Responded resp =>
      ok resp && match body resp with Parsed _ => true | Malformed _ => false end
  | Unreachable _ => false
  end.

(** The reason the save chain hands to its [catch] when the exchange is not
    accepted (lines 248-254); [error_object] makes the engine's errors. *)
Definition save_reason (error_object : exn -> value) (x : exchange) : value :=
  match x with
  | Unreachable err => err
  | Responded resp =>
      match body resp with
      | Malformed err => err
      | Parsed data =>
          match Get data "error" with
          | Throw e => error_object e
          | Normal err =>
              if (status resp =? 409)%Z then err
              else or_ err (VString (lit "Bilinmeyen hata"))
          end
      end
  end.

(** The reason the update chain hands to its [catch] (lines 278-282). *)
Definition update_reason (error_object : exn -> value) (x : exchange) : value :=
  match x with
  | Unreachable err => err
  | Responded resp =>
      match body resp with
      | Malformed err => err
      | Parsed data =>
          match Get data "error" with
          | Throw e => error_object e
          | Normal err => or_ err (VString (lit "Bilinmeyen hata"))
          end
      end
  end.

(** *** Comparisons with a number: the loop bound and the record count

    A number is read through its text, the output of [Number::toString]:
    digits with an optional fraction, an exponent form for magnitudes of
    1e21 and more or below 1e-6, a leading minus sign, [Infinity], [NaN]. *)

(** The number the decimal digits at the head of a text denote. *)
Fixpoint leading_digits (acc : N) (s : jsstring) : N :=
  match s with
  | c :: rest =>
      if ((48 <=? c) && (c <=? 57))%N
      then leading_digits (10 * acc + (c - 48))%N rest
      else acc
  | [] => acc
  end.

(** 2^53: from there on [i++] leaves the counter as it is. *)
Definition MAX_COUNTER : N := 9007199254740992%N.

(** How many of [i = 1, 2, ...] pass the test [i <= n] of line 130 before
    the first that fails, for the number [n] of a text: the integer part of
    [n] when that is below 2^53, and none for a negative number, for NaN and
    for a magnitude below 1; [None] when no counter fails the test and the
    loop never ends, which is so for Infinity and for every number from 2^53
    on (an exponent form with a plus sign is 1e21 or more). *)
Definition passes (t : jsstring) : option N :=
  if bool_decide (head t = Some 45%N) then Some 0%N
  else if bool_decide (head t = Some 73%N) then None
  else if bool_decide (101%N ∈ t)
       then if bool_decide (43%N ∈ t) then None else Some 0%N
       else if (leading_digits 0 t <? MAX_COUNTER)%N
            then Some (leading_digits 0 t)
            else None.

(** The loop bound of an engine is that of the language on every number
    for which the loop ends. *)
Definition counts_numbers (upto : value -> nat) : Prop :=
  forall (n : number) (k : N),
    passes (number_text n) = Some k -> upto (VNumber n) = N.to_nat k.

(** [v.length]: the length of a string, the data property of an object. *)
Definition length_of (v : value) : completion value :=
  match v with
  | VString s =>
      Normal (VNumber (Number (bool_decide (s = [])) (decimal (length s))))
  | _ => Get v "length"
  end.

(** [n > 0] for a number: it is neither zero nor NaN, and not negative. *)
Definition positive (n : number) : bool :=
  negb (zero_or_nan n) && negb (bool_decide (head (number_text n) = Some 45%N)).

(** [len > 0] where the comparison has no string to convert: [undefined]
    compares as NaN, [null] as 0 and a boolean as 0 or 1. *)
Definition greater_than_zero (len : value) : option bool :=
  match len with
  | VNumber n => Some (positive n)
  | VUndefined | VNull => Some false
  | VBoolean b => Some b
  | VBigInt z => Some (0 <? z)%Z
  | VString _ | VSymbol _ | VObject _ _ _ => None
  end.

(** The test [attData.length > 0] of an engine is that of the language
    wherever the length is such a value. *)
Definition reads_length (has_records : value -> bool) : Prop :=
  forall (attData len : value) (b : bool),
    length_of attData = Normal len ->
    greater_than_zero len = Some b ->
    has_records attData = b.

(** A page before any request, both buttons hidden. *)
Definition blank_page : page :=
  Page [] [] (lit "none") [] (lit "none") (lit "none") [].

(** A renderer for the examples: one row per call, and a throw on null
    students. *)
Definition sample_render (students attData : value) (rows : list value)
    : completion unit * list value :=
  match students with
  | VNull => (Throw TypeError, [])
  | _ => (Normal tt, [students])
  end.

(** An engine for the examples: one error object, counts below ten read off
    a number's text. *)
Definition sample_error_object (e : exn) : value :=
  VObject false [] (Some (lit "TypeError")).

Definition sample_upto (v : value) : nat :=
  match v with
  | VNumber n =>
      match number_text n with
      | [d] => N.to_nat (d - 48)
      | _ => 0
      end
  | _ => 0
  end.

(** A JSON body [{ lessons: n }] for a one-digit [n]. *)
Definition lessons_body (n : N) : value :=
  object_literal [("lessons", VNumber (Number (n =? 0)%N [(48 + n)%N]))].

(** The loop bound read off a number's text; no pass where the loop does
    not end or the comparison converts another value. *)
Definition numeric_upto (v : value) : nat :=
  match v with
  | VNumber n =>
      match passes (number_text n) with
      | Some k => N.to_nat k
      | None => 0
      end
  | _ => 0
  end.

(** An array of a JSON body: its elements by index, its length, and the
    [forEach] it inherits; [text] is what its [toString] gives. *)
Definition array (elements : list value) (text : jsstring) : value :=
  VObject false
    (imap (fun i x => (NilZero.string_of_uint (Nat.to_uint i), x)) elements
     ++ [("length",
          VNumber (Number (bool_decide (length elements = 0))
                     (decimal (length elements))));
         ("forEach",
          VObject true [] (Some (lit "function forEach() { [native code] }")))])
    (Some text).

(** [v.forEach] is a function. *)
Definition has_forEach (v : value) : bool :=
  match Get v "forEach" with
  | Normal (VObject true _ _) => true
  | _ => false
  end.

(** The record test with the language's comparison. *)
Definition length_is_positive (attData : value) : bool :=
  match length_of attData with
  | Normal len => default false (greater_than_zero len)
  | Throw _ => false
  end.

(** A table for the examples: the call [attData.forEach] of line 160 throws
    before the table is touched, [students.forEach] of line 182 after it is
    emptied; otherwise one row per student. *)
Definition sample_table (students attData : value) (rows : list value)
    : completion unit * list value :=
  if negb (has_forEach attData) then (Throw TypeError, rows)
  else if negb (has_forEach students) then (Throw TypeError, [])
  else (Normal tt,
        match students with
        | VObject _ props _ =>
            snd <$> filter (fun kv => kv.1 <> "length" /\ kv.1 <> "forEach") props
        | _ => []
        end).

(** A student and an attendance record of a JSON body. *)
Definition sample_student : value :=
  object_literal
    [("id", VNumber (Number false (lit "7"))); ("name", VString (lit "Ada"))].

Definition sample_record : value :=
  object_literal
    [("student_id", VNumber (Number false (lit "7")));
     ("status", VString (lit "present")); ("note", VString (lit ""))].

End Attendance.

Import JS ClientLogger.

(** * The reporter: truncation *)

Section Truncate.

Lemma typeof_string (s : jsstring) : String.eqb (typeof (VString s)) "string" = true.
Proof. reflexivity. Qed.

Lemma slice_prefix (n : nat) (s : jsstring) : slice 0 n s = take n s.
Proof. unfold slice. by rewrite Nat.sub_0_r, drop_0. Qed.

Lemma truncate_string (s : jsstring) :
  truncate (VString s) =
    if (MAX_MESSAGE_LENGTH <? length s)%nat
    then VString (take MAX_MESSAGE_LENGTH s ++ ELLIPSIS)
    else VString s.
Proof. unfold truncate. rewrite typeof_string, slice_prefix. reflexivity. Qed.

Lemma truncate_not_string (v : value) : typeof v ≠ "string" -> truncate v = v.
Proof.
  intros Hty. unfold truncate.
  destruct (String.eqb_spec (typeof v) "string") as [E|_]; [by destruct Hty|].
  reflexivity.
Qed.

Lemma truncate_short (s : jsstring) :
  length s <= MAX_MESSAGE_LENGTH -> truncate (VString s) = VString s.
Proof.
  intros Hle. rewrite truncate_string.
  destruct (Nat.ltb_spec MAX_MESSAGE_LENGTH (length s)); [lia | reflexivity].
Qed.

Lemma occurrences_app (c : code_unit) (s t : jsstring) :
  occurrences c (s ++ t) = occurrences c s + occurrences c t.
Proof. unfold occurrences. by rewrite filter_app, length_app. Qed.

Lemma occurrences_ELLIPSIS : occurrences U2026 ELLIPSIS = 1.
Proof. reflexivity. Qed.

End Truncate.

(** C1 (as amended). A string longer than [MAX_MESSAGE_LENGTH] is cut to its
    first 500 code units followed by the marker: the result is 500 plus the
    marker length long, it ends with the marker, and the marker occurs in it
    once more than in the kept prefix, so exactly once when the prefix holds
    none. *)
Theorem truncate_over_length (s : jsstring) :
  MAX_MESSAGE_LENGTH < length s ->
  exists r : jsstring,
    truncate (VString s) = VString r
    /\ r = take MAX_MESSAGE_LENGTH s ++ ELLIPSIS
    /\ length r = MAX_MESSAGE_LENGTH + length ELLIPSIS
    /\ drop MAX_MESSAGE_LENGTH r = ELLIPSIS
    /\ occurrences U2026 r = S (occurrences U2026 (take MAX_MESSAGE_LENGTH s))
    /\ (occurrences U2026 (take MAX_MESSAGE_LENGTH s) = 0 -> occurrences U2026 r = 1).
Proof.
  intros Hlen. exists (take MAX_MESSAGE_LENGTH s ++ ELLIPSIS).
  assert (Htake : length (take MAX_MESSAGE_LENGTH s) = MAX_MESSAGE_LENGTH)
    by (rewrite length_take; lia).
  assert (Hocc : occurrences U2026 (take MAX_MESSAGE_LENGTH s ++ ELLIPSIS)
                 = S (occurrences U2026 (take MAX_MESSAGE_LENGTH s))).
  { rewrite occurrences_app, occurrences_ELLIPSIS. lia. }
  repeat split.
  - rewrite truncate_string.
    destruct (Nat.ltb_spec MAX_MESSAGE_LENGTH (length s)); [reflexivity | lia].
  - rewrite length_app, Htake. reflexivity.
  - rewrite drop_app_length'; [reflexivity | by rewrite Htake].
  - exact Hocc.
  - intros Hnone. rewrite Hocc, Hnone. reflexivity.
Qed.

Lemma truncate_over_length_witness :
  exists r : jsstring,
    truncate (VString (replicate 600 120%N)) = VString r
    /\ r = take MAX_MESSAGE_LENGTH (replicate 600 120%N) ++ ELLIPSIS
    /\ length r = MAX_MESSAGE_LENGTH + length ELLIPSIS
    /\ drop MAX_MESSAGE_LENGTH r = ELLIPSIS
    /\ occurrences U2026 r
       = S (occurrences U2026 (take MAX_MESSAGE_LENGTH (replicate 600 120%N)))
    /\ (occurrences U2026 (take MAX_MESSAGE_LENGTH (replicate 600 120%N)) = 0 ->
        occurrences U2026 r = 1).
Proof.
  apply (truncate_over_length (replicate 600 120%N)).
  rewrite length_replicate. unfold MAX_MESSAGE_LENGTH. lia.
Defined.

(** C1 (as stated) fails: an input of 499 letters, a U+2026 and two more
    letters is over-length and is cut right after its own U+2026, so the
    marker stands twice at the end of the result, not once. *)
Lemma truncate_marker_not_once :
  let s := replicate 499 97%N ++ [U2026; 97%N; 98%N] in
  MAX_MESSAGE_LENGTH < length s
  /\ truncate (VString s) = VString (replicate 499 97%N ++ [U2026; U2026])
  /\ occurrences U2026 (replicate 499 97%N ++ [U2026; U2026]) = 2
  /\ occurrences U2026 (replicate 499 97%N ++ [U2026; U2026]) ≠ 1.
Proof.
  cbv zeta. split; [|split; [|split]].
  - rewrite length_app, length_replicate. unfold MAX_MESSAGE_LENGTH. cbn. lia.
  - vm_compute. reflexivity.
  - vm_compute. reflexivity.
  - vm_compute. discriminate.
Qed.

(** C10. [truncate] returns its argument unchanged when it is not a string
    and when it is a string of at most 500 code units. *)
Theorem truncate_identity (v : value) :
  (typeof v ≠ "string" \/ exists s, v = VString s /\ length s <= MAX_MESSAGE_LENGTH) ->
  truncate v = v.
Proof.
  intros [Hty | (s & -> & Hle)].
  - by apply truncate_not_string.
  - by apply truncate_short.
Qed.

Lemma truncate_identity_witness :
  truncate (VNumber (Number false (lit "42"))) = VNumber (Number false (lit "42"))
  /\ truncate (VString (replicate 500 120%N)) = VString (replicate 500 120%N).
Proof.
  split.
  - apply (truncate_identity (VNumber (Number false (lit "42")))).
    left. cbn. discriminate.
  - apply (truncate_identity (VString (replicate 500 120%N))).
    right. exists (replicate 500 120%N). split; [reflexivity|].
    rewrite length_replicate. unfold MAX_MESSAGE_LENGTH. lia.
Defined.

(** Truncating twice is truncating once: a cut string has 501 code units and
    is cut again to the same 500 and the same marker. *)
Lemma truncate_idempotent (v : value) : truncate (truncate v) = truncate v.
Proof.
  destruct (String.eqb_spec (typeof v) "string") as [Hty|Hty].
  - destruct v as [| | | | |s| |[] ? ?]; try discriminate.
    rewrite (truncate_string s).
    destruct (Nat.ltb_spec MAX_MESSAGE_LENGTH (length s)) as [Hlong|Hshort].
    + rewrite truncate_string.
      assert (Htake : length (take MAX_MESSAGE_LENGTH s) = MAX_MESSAGE_LENGTH)
        by (rewrite length_take; lia).
      rewrite length_app, Htake.
      destruct (Nat.ltb_spec MAX_MESSAGE_LENGTH (MAX_MESSAGE_LENGTH + length ELLIPSIS))
        as [_|Hle]; [|unfold ELLIPSIS in Hle; cbn [length] in Hle; lia].
      by rewrite take_app_length' by (by rewrite Htake).
    + by apply truncate_short.
  - rewrite (truncate_not_string v Hty). by apply truncate_not_string.
Qed.

(** A truncated string has at most 500 code units and the marker. *)
Lemma truncate_bound (s r : jsstring) :
  truncate (VString s) = VString r ->
  length r <= MAX_MESSAGE_LENGTH + length ELLIPSIS.
Proof.
  rewrite truncate_string.
  destruct (Nat.ltb_spec MAX_MESSAGE_LENGTH (length s)); intros [= <-].
  - rewrite length_app, length_take. lia.
  - unfold ELLIPSIS. cbn [length]. lia.
Qed.

Lemma truncate_bound_witness :
  length (replicate 500 120%N ++ ELLIPSIS) <= MAX_MESSAGE_LENGTH + length ELLIPSIS.
Proof.
  apply (truncate_bound (replicate 600 120%N) (replicate 500 120%N ++ ELLIPSIS)).
  vm_compute. reflexivity.
Defined.

(** * The reporter: payload construction *)

Section Builder.
Variable h : host.

Lemma Get_truthy (v : value) (k : string) :
  ToBoolean v = true -> Get v k = Normal (field v k).
Proof. destruct v; cbn; try discriminate; reflexivity. Qed.

Lemma Get_object_literal (props : list (string * value)) (k : string) :
  Get (object_literal props) k = Normal (default VUndefined (assoc k props)).
Proof. reflexivity. Qed.

(** What one call of the builder evaluates to, and the effects it adds. *)
Lemma buildPayload_eval (level message metadata : value) (log : list effect) :
  buildPayload h level message metadata log =
    (match stack_text metadata with
     | Normal stack =>
         Normal (object_literal
                   [("level", level);
                    ("message", truncate (or_ message (VString (lit ""))));
                    ("url", VString (location_href h));
                    ("ua", VString (navigator_userAgent h));
                    ("ts", VString (Date_toISOString h));
                    ("stack", truncate (VString stack));
                    ("extra", extra_value metadata)])
     | Throw e => Throw e
     end,
     log ++ payload_reads).
Proof.
  unfold buildPayload, stack_text, extra_value, stack_operand, extra_operand,
    payload_reads, bind, emit, lift, ret.
  replace (((log ++ [ReadLocationHref]) ++ [ReadUserAgent]) ++ [ReadClock])
    with (log ++ [ReadLocationHref; ReadUserAgent; ReadClock])
    by (by rewrite <- !app_assoc).
  destruct (ToBoolean metadata) eqn:Hm.
  - rewrite !(Get_truthy _ _ Hm).
    destruct (ToBoolean (field metadata "stack")).
    + destruct (String_ (field metadata "stack")); [|reflexivity].
      destruct (ToBoolean (field metadata "extra")); reflexivity.
    + destruct (ToBoolean (field metadata "extra")); reflexivity.
  - rewrite Hm. reflexivity.
Qed.

Lemma error_payload_eval (event : value) (log : list effect) :
  ToBoolean event = true ->
  error_payload h event log =
    buildPayload h (VString (lit "error"))
      (or_ (field event "message") (VString (lit "Script error")))
      (object_literal
         [("stack", if ToBoolean (field event "error")
                    then field (field event "error") "stack"
                    else field event "error");
          ("extra", object_literal
                      [("filename", field event "filename");
                       ("lineno", field event "lineno");
                       ("colno", field event "colno")])])
      log.
Proof.
  intros Hev. unfold error_payload, bind, lift, ret.
  rewrite !(Get_truthy _ _ Hev).
  destruct (ToBoolean (field event "error")) eqn:Herr; [|reflexivity].
  rewrite (Get_truthy _ _ Herr). reflexivity.
Qed.

Lemma field_falsy (v : value) (k : string) :
  ToBoolean v = false -> field v k = VUndefined.
Proof. destruct v; cbn; try discriminate; reflexivity. Qed.

Lemma rejection_payload_eval (event : value) (log : list effect) :
  ToBoolean event = true ->
  typeof (field event "reason") ≠ "string" ->
  rejection_payload h event log =
    buildPayload h (VString (lit "error"))
      (if ToBoolean (field (field event "reason") "message")
       then field (field event "reason") "message"
       else VString (lit "Unhandled promise rejection"))
      (object_literal
         [("stack", if ToBoolean (field (field event "reason") "stack")
                    then field (field event "reason") "stack"
                    else VString (lit ""))])
      log.
Proof.
  intros Hev Hty. unfold rejection_payload, bind, lift, ret.
  rewrite (Get_truthy _ _ Hev).
  destruct (ToBoolean (field event "reason")) eqn:Hr.
  - destruct (String.eqb_spec (typeof (field event "reason")) "string") as [E|_];
      [by destruct Hty|].
    rewrite !(Get_truthy _ _ Hr).
    destruct (ToBoolean (field (field event "reason") "message"));
      destruct (ToBoolean (field (field event "reason") "stack")); reflexivity.
  - rewrite !(field_falsy _ _ Hr). reflexivity.
Qed.

(** Both listeners end in one call of the builder with the level
    ["error"] (lines 45 and 67). *)
Lemma Get_normal (v x : value) (k k' : string) :
  Get v k = Normal x -> Get v k' = Normal (field v k').
Proof. destruct v; cbn; try discriminate; reflexivity. Qed.

Lemma error_payload_builds (event : value) (log : list effect) (payload : value) :
  fst (error_payload h event log) = Normal payload ->
  exists message metadata,
    fst (buildPayload h (VString (lit "error")) message metadata log) = Normal payload.
Proof.
  unfold error_payload, bind, lift, ret.
  destruct (Get event "message") as [msg|e] eqn:Hmsg; [|discriminate].
  rewrite (Get_normal _ _ _ "error" Hmsg), (Get_normal _ _ _ "filename" Hmsg),
    (Get_normal _ _ _ "lineno" Hmsg), (Get_normal _ _ _ "colno" Hmsg).
  destruct (ToBoolean (field event "error")) eqn:Herr; [|eauto].
  rewrite (Get_truthy _ _ Herr). eauto.
Qed.

Lemma rejection_payload_builds (event : value) (log : list effect) (payload : value) :
  fst (rejection_payload h event log) = Normal payload ->
  exists message metadata,
    fst (buildPayload h (VString (lit "error")) message metadata log) = Normal payload.
Proof.
  unfold rejection_payload, bind, lift, ret.
  destruct (Get event "reason") as [reason|e]; [|discriminate].
  destruct (ToBoolean reason) eqn:Hr; [|cbn [fst snd]; eauto].
  rewrite !(Get_truthy _ _ Hr).
  destruct (String.eqb (typeof reason) "string");
    [|destruct (ToBoolean (field reason "message"))];
    destruct (ToBoolean (field reason "stack")); cbn [fst snd]; eauto.
Qed.

(** The shape of what the builder returns. *)
Lemma buildPayload_fields (level message metadata : value) (log : list effect)
    (payload : value) :
  fst (buildPayload h level message metadata log) = Normal payload ->
  keys payload = ["level"; "message"; "url"; "ua"; "ts"; "stack"; "extra"]
  /\ field payload "level" = level
  /\ field payload "message" = truncate (or_ message (VString (lit "")))
  /\ field payload "url" = VString (location_href h)
  /\ field payload "ua" = VString (navigator_userAgent h)
  /\ field payload "ts" = VString (Date_toISOString h)
  /\ typeof (field payload "stack") = "string"
  /\ field payload "extra" = extra_value metadata.
Proof.
  rewrite buildPayload_eval. cbn [fst].
  destruct (stack_text metadata) as [stack|e]; [|discriminate].
  intros [= <-]. repeat split.
  change (field _ "stack") with (truncate (VString stack)).
  rewrite truncate_string. by destruct (_ <? _)%nat.
Qed.

(** The builder with its conversion running: the same completion, and the
    effects of the conversion after the three reads. *)
Lemma buildPayload_running_eval (conversion_effects : value -> list effect)
    (level message metadata : value) (log : list effect) :
  buildPayload_running h conversion_effects level message metadata log =
    (fst (buildPayload h level message metadata log),
     log ++ payload_reads ++ stack_conversion conversion_effects metadata).
Proof.
  rewrite buildPayload_eval. cbn [fst].
  unfold buildPayload_running, String_running, stack_conversion, stack_text,
    extra_value, stack_operand, extra_operand, payload_reads, bind, emit, lift, ret.
  replace (((log ++ [ReadLocationHref]) ++ [ReadUserAgent]) ++ [ReadClock])
    with (log ++ [ReadLocationHref; ReadUserAgent; ReadClock])
    by (by rewrite <- !app_assoc).
  destruct (ToBoolean metadata) eqn:Hm.
  - rewrite !(Get_truthy _ _ Hm).
    destruct (ToBoolean (field metadata "stack")); cbn [andb].
    + destruct (runs_code (field metadata "stack")).
      * rewrite <- app_assoc.
        destruct (String_ (field metadata "stack")); [|reflexivity].
        destruct (ToBoolean (field metadata "extra")); reflexivity.
      * rewrite app_nil_r.
        destruct (String_ (field metadata "stack")); [|reflexivity].
        destruct (ToBoolean (field metadata "extra")); reflexivity.
    + rewrite app_nil_r. destruct (ToBoolean (field metadata "extra")); reflexivity.
  - rewrite Hm. cbn [andb]. rewrite app_nil_r. reflexivity.
Qed.

Lemma deliveries_app (a b : list effect) :
  deliveries (a ++ b) = deliveries a + deliveries b.
Proof. unfold deliveries. by rewrite filter_app, length_app. Qed.

Lemma payload_message (level message url ua ts stack extra : value) :
  field (object_literal
           [("level", level); ("message", message); ("url", url); ("ua", ua);
            ("ts", ts); ("stack", stack); ("extra", extra)]) "message" = message.
Proof. reflexivity. Qed.

Lemma stack_text_object_literal (stack : value) (rest : list (string * value)) :
  stack_text (object_literal (("stack", stack) :: rest)) =
    if ToBoolean stack then String_ stack else Normal (lit "").
Proof. reflexivity. Qed.

Lemma stack_text_throws (metadata : value) (e : exn) :
  stack_text metadata = Throw e ->
  e = TypeError /\
  exists callable props, field metadata "stack" = VObject callable props None.
Proof.
  unfold stack_text. destruct (ToBoolean (stack_operand metadata)); [|discriminate].
  destruct (field metadata "stack") as [| | | | | | |c props [s|]]; cbn;
    try discriminate.
  intros [= <-]. eauto.
Qed.

End Builder.

(** With conversions that run no code of their own, one call of
    [buildPayload] adds to the effect log exactly the reads of the current
    URL, the user agent and the clock, in that order, also when the call ends
    in an exception. *)
Lemma buildPayload_only_reads (h : host) (level message metadata : value)
    (log : list effect) :
  exists added : list effect,
    snd (buildPayload h level message metadata log) = log ++ added
    /\ added = [ReadLocationHref; ReadUserAgent; ReadClock]
    /\ Forall (fun e => is_read e = true) added
    /\ deliveries added = 0.
Proof.
  exists payload_reads. rewrite buildPayload_eval. cbn [snd].
  repeat split. repeat constructor.
Qed.

(** C9 (as amended). For every level, message and metadata (an object
    carries data properties, as the metadata of both call sites does), and
    whatever the conversion method of an object does, the effects of one call
    of the builder are the reads of the current URL, the user agent and the clock,
    in this order, followed by the effects of the conversion
    [String(metadata.stack)], and by nothing else, also when the call ends in
    an exception; the completion is the one of the builder with silent
    conversions. The builder's own part holds no delivery: the call delivers
    what the conversion delivers. When the stack is absent, falsy or a
    primitive, and when the conversion method is silent, the three reads are
    the only effects. *)
Theorem buildPayload_effects (h : host) (conversion_effects : value -> list effect)
    (level message metadata : value) (log : list effect) :
  let run := buildPayload_running h conversion_effects level message metadata log in
  let converted := stack_conversion conversion_effects metadata in
  snd run = log ++ [ReadLocationHref; ReadUserAgent; ReadClock] ++ converted
  /\ fst run = fst (buildPayload h level message metadata log)
  /\ deliveries ([ReadLocationHref; ReadUserAgent; ReadClock] ++ converted)
     = deliveries converted
  /\ (ToBoolean (stack_operand metadata) = false
      \/ runs_code (field metadata "stack") = false
      \/ conversion_effects (field metadata "stack") = [] ->
      snd run = log ++ [ReadLocationHref; ReadUserAgent; ReadClock])
  /\ ((forall v, conversion_effects v = []) ->
      run = buildPayload h level message metadata log).
Proof.
  intros run converted. subst run converted.
  rewrite buildPayload_running_eval. cbn [fst snd]. repeat split.
  - intros Hsilent. f_equal. unfold payload_reads, stack_conversion.
    destruct Hsilent as [-> | [Hprim | Hnone]].
    + reflexivity.
    + rewrite Hprim, andb_false_r. reflexivity.
    + rewrite Hnone. by destruct (_ && _).
  - intros Hsilent. rewrite buildPayload_eval. cbn [fst]. f_equal. f_equal.
    unfold stack_conversion. rewrite Hsilent. destruct (_ && _); apply app_nil_r.
Qed.

Lemma buildPayload_effects_witness :
  snd (buildPayload_running offline_page tracking_conversion (VString (lit "error"))
         (VString (lit "boom"))
         (object_literal [("stack", VString (lit "Error: boom at app.js:1"))]) [])
  = [] ++ [ReadLocationHref; ReadUserAgent; ReadClock].
Proof.
  apply (proj1 (proj2 (proj2 (proj2
           (buildPayload_effects offline_page tracking_conversion
              (VString (lit "error")) (VString (lit "boom"))
              (object_literal [("stack", VString (lit "Error: boom at app.js:1"))])
              []))))).
  right. left. reflexivity.
Defined.

(** C9 (as stated) fails: for a stack whose [toString] fetches, the call
    of the builder issues that network call after its three reads, and
    returns its payload as usual. *)
Lemma buildPayload_conversion_fetches :
  let metadata := object_literal [("stack", tracking_stack)] in
  let run :=
    buildPayload_running offline_page tracking_conversion (VString (lit "error"))
      (VString (lit "boom")) metadata [] in
  snd run = [ReadLocationHref; ReadUserAgent; ReadClock;
             Fetch (lit "/track") (fetch_init VUndefined)]
  /\ deliveries (snd run) = 1
  /\ ~ Forall (fun e => is_read e = true) (snd run)
  /\ exists payload, fst run = Normal payload
                     /\ field payload "stack" = VString (lit "trace").
Proof.
  cbv zeta. split; [vm_compute; reflexivity|].
  split; [vm_compute; reflexivity|]. split.
  - intros Hall. vm_compute in Hall.
    apply Forall_cons in Hall as [_ Hall]. apply Forall_cons in Hall as [_ Hall].
    apply Forall_cons in Hall as [_ Hall]. apply Forall_cons in Hall as [Hfetch _].
    discriminate.
  - eexists. split; vm_compute; reflexivity.
Qed.

(** C4 (as amended). Every payload the builder returns is an object with
    exactly the fields level, message, url, ua, ts, stack and extra, in this
    order: level is the level argument, url and ua are the page's URL and user
    agent, ts is the string [new Date().toISOString()] gave, stack is a string
    and extra is the metadata's extra or undefined. Both call sites pass the
    level ["error"]: every payload the error listener or the rejection
    listener builds has these fields with level equal to ["error"]. *)
Theorem buildPayload_shape (h : host) :
  (forall (level message metadata : value) (log : list effect) (payload : value),
      fst (buildPayload h level message metadata log) = Normal payload ->
      keys payload = ["level"; "message"; "url"; "ua"; "ts"; "stack"; "extra"]
      /\ field payload "level" = level
      /\ field payload "message" = truncate (or_ message (VString (lit "")))
      /\ field payload "url" = VString (location_href h)
      /\ field payload "ua" = VString (navigator_userAgent h)
      /\ field payload "ts" = VString (Date_toISOString h)
      /\ typeof (field payload "stack") = "string"
      /\ field payload "extra" = extra_value metadata)
  /\ (forall (event : value) (log : list effect) (payload : value),
        fst (error_payload h event log) = Normal payload
        \/ fst (rejection_payload h event log) = Normal payload ->
        keys payload = ["level"; "message"; "url"; "ua"; "ts"; "stack"; "extra"]
        /\ field payload "level" = VString (lit "error")
        /\ field payload "url" = VString (location_href h)
        /\ field payload "ua" = VString (navigator_userAgent h)
        /\ field payload "ts" = VString (Date_toISOString h)
        /\ typeof (field payload "stack") = "string").
Proof.
  split.
  - apply buildPayload_fields.
  - intros event log payload Hbuilt.
    assert (exists message metadata,
               fst (buildPayload h (VString (lit "error")) message metadata log)
               = Normal payload) as (message & metadata & Hpayload).
    { destruct Hbuilt as [Hbuilt|Hbuilt];
        [exact (error_payload_builds h event log payload Hbuilt)
        |exact (rejection_payload_builds h event log payload Hbuilt)]. }
    destruct (buildPayload_fields h _ _ _ _ _ Hpayload)
      as (Hkeys & Hlevel & _ & Hurl & Hua & Hts & Hstack & _).
    by repeat split.
Qed.

Lemma buildPayload_shape_witness :
  (let payload :=
     object_literal
       [("level", VString (lit "error"));
        ("message", VString (lit "boom"));
        ("url", VString (location_href offline_page));
        ("ua", VString (navigator_userAgent offline_page));
        ("ts", VString (Date_toISOString offline_page));
        ("stack", VString (lit ""));
        ("extra", VUndefined)] in
   keys payload = ["level"; "message"; "url"; "ua"; "ts"; "stack"; "extra"]
   /\ field payload "level" = VString (lit "error")
   /\ field payload "message" = truncate (or_ (VString (lit "boom")) (VString (lit "")))
   /\ field payload "url" = VString (location_href offline_page)
   /\ field payload "ua" = VString (navigator_userAgent offline_page)
   /\ field payload "ts" = VString (Date_toISOString offline_page)
   /\ typeof (field payload "stack") = "string"
   /\ field payload "extra" = extra_value VUndefined)
  /\ (exists payload : value,
         fst (error_payload offline_page script_error_event []) = Normal payload
         /\ keys payload = ["level"; "message"; "url"; "ua"; "ts"; "stack"; "extra"]
         /\ field payload "level" = VString (lit "error")
         /\ field payload "url" = VString (location_href offline_page)
         /\ field payload "ua" = VString (navigator_userAgent offline_page)
         /\ field payload "ts" = VString (Date_toISOString offline_page)
         /\ typeof (field payload "stack") = "string")
  /\ (exists payload : value,
         fst (rejection_payload offline_page
                (rejection_event (lit "boom") (lit "Error: boom at app.js:1")) [])
         = Normal payload
         /\ keys payload = ["level"; "message"; "url"; "ua"; "ts"; "stack"; "extra"]
         /\ field payload "level" = VString (lit "error")
         /\ field payload "url" = VString (location_href offline_page)
         /\ field payload "ua" = VString (navigator_userAgent offline_page)
         /\ field payload "ts" = VString (Date_toISOString offline_page)
         /\ typeof (field payload "stack") = "string").
Proof.
  split; [|split].
  - cbv zeta.
    apply (proj1 (buildPayload_shape offline_page) (VString (lit "error"))
             (VString (lit "boom")) VUndefined []).
    vm_compute. reflexivity.
  - eexists. split; [vm_compute; reflexivity|].
    apply (proj2 (buildPayload_shape offline_page) script_error_event []).
    left. vm_compute. reflexivity.
  - eexists. split; [vm_compute; reflexivity|].
    apply (proj2 (buildPayload_shape offline_page)
             (rejection_event (lit "boom") (lit "Error: boom at app.js:1")) []).
    right. vm_compute. reflexivity.
Defined.

(** C4 (as stated) fails: the payload built for an error on the sample page
    has the fields ua and ts; it has no field named userAgent or timestamp. *)
Lemma buildPayload_no_userAgent_timestamp :
  exists payload : value,
    fst (buildPayload offline_page (VString (lit "error")) (VString (lit "boom"))
           VUndefined []) = Normal payload
    /\ keys payload = ["level"; "message"; "url"; "ua"; "ts"; "stack"; "extra"]
    /\ keys payload
       ≠ ["level"; "message"; "url"; "userAgent"; "timestamp"; "stack"; "extra"]
    /\ Get payload "userAgent" = Normal VUndefined
    /\ Get payload "timestamp" = Normal VUndefined.
Proof.
  eexists. split; [vm_compute; reflexivity|].
  repeat split. discriminate.
Qed.

(** C7 (as amended). The builder has no handler of its own: it returns
    normally for every level and message and every metadata whose stack is
    absent, falsy or converts to a string, and then an absent message, stack
    or extra is replaced by the empty string, the empty string and undefined. *)
Theorem buildPayload_returns (h : host) (level message metadata : value)
    (log : list effect) :
  (exists text, stack_text metadata = Normal text) ->
  exists payload : value,
    fst (buildPayload h level message metadata log) = Normal payload
    /\ (ToBoolean message = false -> field payload "message" = VString (lit ""))
    /\ (ToBoolean (stack_operand metadata) = false ->
        field payload "stack" = VString (lit ""))
    /\ (ToBoolean (extra_operand metadata) = false ->
        field payload "extra" = VUndefined).
Proof.
  intros [text Htext]. rewrite buildPayload_eval, Htext. cbn [fst].
  eexists. split; [reflexivity|]. repeat split.
  - intros Hm. change (field _ "message") with (truncate (or_ message (VString (lit "")))).
    unfold or_. rewrite Hm. reflexivity.
  - intros Hs. change (field _ "stack") with (truncate (VString text)).
    unfold stack_text in Htext. rewrite Hs in Htext. injection Htext as <-.
    reflexivity.
  - intros He. change (field _ "extra") with (extra_value metadata).
    unfold extra_value. rewrite He. reflexivity.
Qed.

Lemma buildPayload_returns_witness :
  exists payload : value,
    fst (buildPayload offline_page VUndefined VNull VUndefined []) = Normal payload
    /\ (ToBoolean VNull = false -> field payload "message" = VString (lit ""))
    /\ (ToBoolean (stack_operand VUndefined) = false ->
        field payload "stack" = VString (lit ""))
    /\ (ToBoolean (extra_operand VUndefined) = false ->
        field payload "extra" = VUndefined).
Proof.
  apply (buildPayload_returns offline_page VUndefined VNull VUndefined []).
  exists (lit ""). reflexivity.
Defined.

(** C7 (as stated) fails: a stack that is an object without a string
    conversion makes [String(metadata.stack)] throw, and the builder, and
    the rejection listener that passes such a reason's stack on, end in that
    TypeError. *)
Lemma buildPayload_raises :
  let bare := VObject false [] None in
  fst (buildPayload offline_page (VString (lit "error")) (VString (lit "boom"))
         (object_literal [("stack", bare)]) []) = Throw TypeError
  /\ fst (on_unhandledrejection offline_page
            (object_literal [("reason", object_literal [("stack", bare)])]) [])
     = Throw TypeError.
Proof. split; vm_compute; reflexivity. Qed.

(** * The reporter: the two listeners *)

(** C5 (as amended). For a rejection whose reason is not a string, the
    payload's message is [truncate] of the reason's message field when that
    field is truthy (the field itself unless it is a string of more than 500
    code units) and the placeholder "Unhandled promise rejection" otherwise;
    for an error event whose message is falsy it is "Script error". The
    listener builds no payload only when the stack it passes on cannot be
    converted to a string. *)
Theorem listener_messages (h : host) :
  (forall (event : value) (log : list effect),
      ToBoolean event = true ->
      typeof (field event "reason") ≠ "string" ->
      match fst (rejection_payload h event log) with
      | Normal payload =>
          field payload "message" =
            if ToBoolean (field (field event "reason") "message")
            then truncate (field (field event "reason") "message")
            else VString (lit "Unhandled promise rejection")
      | Throw _ =>
          exists callable props,
            field (field event "reason") "stack" = VObject callable props None
      end)
  /\ (forall (event : value) (log : list effect),
        ToBoolean event = true ->
        ToBoolean (field event "message") = false ->
        match fst (error_payload h event log) with
        | Normal payload => field payload "message" = VString (lit "Script error")
        | Throw _ =>
            exists callable props,
              field (field event "error") "stack" = VObject callable props None
        end).
Proof.
  split; intros event log Hev Hcond.
  - rewrite (rejection_payload_eval h event log Hev Hcond), buildPayload_eval.
    cbn [fst]. rewrite stack_text_object_literal.
    set (reason := field event "reason").
    set (stack := if ToBoolean (field reason "stack")
                  then field reason "stack"
                  else VString (lit "")).
    assert (Hmsg : truncate
                     (or_ (if ToBoolean (field reason "message")
                           then field reason "message"
                           else VString (lit "Unhandled promise rejection"))
                        (VString (lit "")))
                   = if ToBoolean (field reason "message")
                     then truncate (field reason "message")
                     else VString (lit "Unhandled promise rejection")).
    { unfold or_. destruct (ToBoolean (field reason "message")) eqn:Hm.
      - by rewrite Hm.
      - reflexivity. }
    destruct (ToBoolean stack) eqn:Hs.
    + destruct (String_ stack) as [text|e] eqn:Htext.
      * rewrite payload_message. exact Hmsg.
      * subst stack. destruct (ToBoolean (field reason "stack")); [|discriminate].
        destruct (field reason "stack") as [| | | | | | |c props [t|]];
          try discriminate. eauto.
    + rewrite payload_message. exact Hmsg.
  - rewrite (error_payload_eval h event log Hev), buildPayload_eval.
    cbn [fst]. rewrite stack_text_object_literal.
    assert (Hmsg : truncate
                     (or_ (or_ (field event "message") (VString (lit "Script error")))
                        (VString (lit "")))
                   = VString (lit "Script error")).
    { unfold or_. rewrite Hcond. reflexivity. }
    set (stack := if ToBoolean (field event "error")
                  then field (field event "error") "stack"
                  else field event "error").
    assert (Hthrow : forall e, String_ stack = Throw e -> ToBoolean stack = true ->
              exists callable props,
                field (field event "error") "stack" = VObject callable props None).
    { subst stack. destruct (ToBoolean (field event "error")) eqn:Herr.
      - destruct (field (field event "error") "stack") as [| | | | | | |c props [t|]];
          try discriminate. eauto.
      - intros e _ Habs. congruence. }
    destruct (ToBoolean stack) eqn:Hs.
    + destruct (String_ stack) as [text|e] eqn:Htext.
      * rewrite payload_message. exact Hmsg.
      * by apply (Hthrow e).
    + rewrite payload_message. exact Hmsg.
Qed.

Lemma listener_messages_witness :
  match fst (rejection_payload offline_page (object_literal [("reason", VNull)]) []) with
  | Normal payload =>
      field payload "message" =
        if ToBoolean (field (field (object_literal [("reason", VNull)]) "reason") "message")
        then truncate (field (field (object_literal [("reason", VNull)]) "reason") "message")
        else VString (lit "Unhandled promise rejection")
  | Throw _ =>
      exists callable props,
        field (field (object_literal [("reason", VNull)]) "reason") "stack"
        = VObject callable props None
  end
  /\ match fst (error_payload offline_page (object_literal []) []) with
     | Normal payload => field payload "message" = VString (lit "Script error")
     | Throw _ =>
         exists callable props,
           field (field (object_literal []) "error") "stack"
           = VObject callable props None
     end.
Proof.
  split.
  - apply (proj1 (listener_messages offline_page)
             (object_literal [("reason", VNull)]) []); [reflexivity|].
    vm_compute. discriminate.
  - apply (proj2 (listener_messages offline_page) (object_literal []) []);
      reflexivity.
Defined.

(** C5 (as stated) fails: a reason whose message has 501 code units gets a
    payload whose message is the first 500 of them and the marker, not the
    reason's message field. *)
Lemma rejection_message_is_truncated :
  let reason := object_literal [("message", VString (replicate 501 97%N))] in
  exists payload : value,
    typeof reason ≠ "string"
    /\ fst (rejection_payload offline_page (object_literal [("reason", reason)]) [])
       = Normal payload
    /\ field payload "message" = VString (replicate 500 97%N ++ ELLIPSIS)
    /\ field payload "message" ≠ field reason "message".
Proof.
  cbv zeta. eexists. split; [vm_compute; discriminate|].
  split; [vm_compute; reflexivity|].
  split; [vm_compute; reflexivity|].
  vm_compute. discriminate.
Qed.

(** * The reporter: transport *)

Section Transport.
Variable h : host.

Lemma discard_caught (p : promise) (log : list effect) :
  discard (promise_catch p) log = (Normal tt, log).
Proof. by destruct p. Qed.

Lemma send_eval (payload : value) (log : list effect) :
  send h payload log = (Normal tt, log ++ sent h payload).
Proof.
  unfold send, sent, try_catch, bind, lift, emit, ret, fetch_init.
  destruct (JSON_stringify h payload) as [body|e]; [|by rewrite app_nil_r].
  destruct (navigator_sendBeacon h) as [sendBeacon|].
  - destruct (Blob_new h [body] (lit "application/json")) as [blob|e];
      [|by rewrite app_nil_r].
    by destruct (sendBeacon ENDPOINT blob).
  - destruct (fetch h ENDPOINT _) as [p|e]; [|reflexivity].
    by rewrite discard_caught.
Qed.

Lemma sent_at_most_one (payload : value) : length (sent h payload) <= 1.
Proof.
  unfold sent. destruct (JSON_stringify h payload); [|cbn; lia].
  destruct (navigator_sendBeacon h); [|cbn; lia].
  destruct (Blob_new h _ _); cbn; lia.
Qed.

End Transport.

(** C6. For every host and every payload, [send] returns normally, whatever
    [JSON.stringify], [Blob], [sendBeacon] or [fetch] do; it adds at most one
    effect, a delivery attempt, and leaves no rejection unhandled. Without
    [sendBeacon], a payload that serializes gives exactly one [fetch] to the
    endpoint, a POST of the body marked keepalive. *)
Theorem send_swallows_and_attempts_once (h : host) (payload : value)
    (log : list effect) :
  exists added : list effect,
    send h payload log = (Normal tt, log ++ added)
    /\ length added <= 1
    /\ deliveries added <= 1
    /\ Forall (fun e => is_unhandled e = false) added
    /\ (forall e, JSON_stringify h payload = Throw e -> added = [])
    /\ (forall body,
          JSON_stringify h payload = Normal body ->
          navigator_sendBeacon h = None ->
          added = [Fetch ENDPOINT (fetch_init body)]
          /\ init_keepalive (fetch_init body) = true
          /\ init_body (fetch_init body) = body).
Proof.
  exists (sent h payload). split; [apply send_eval|].
  split; [apply sent_at_most_one|].
  split.
  { unfold deliveries. etrans; [apply length_filter | apply sent_at_most_one]. }
  unfold sent.
  destruct (JSON_stringify h payload) as [body|e].
  - destruct (navigator_sendBeacon h) as [sendBeacon|].
    + destruct (Blob_new h [body] (lit "application/json")) as [blob|e];
        (split; [repeat constructor|]); (split; [discriminate|]); discriminate.
    + split; [repeat constructor|].
      split; [discriminate|]. intros body' [= <-] _. by repeat split.
  - split; [constructor|]. split; [reflexivity|]. discriminate.
Qed.

(** On the sample page, whose [fetch] rejects, the rejection is caught. *)
Example send_offline :
  send offline_page (object_literal [("level", VString (lit "error"))]) [] =
    (Normal tt, [Fetch ENDPOINT (fetch_init (VString (lit "{}")))]).
Proof. reflexivity. Qed.

(** * The rate limiter *)

Import RateLimiter.

Section Limiter.
Variable limit : nat.
Variable windowSize : Z.

Local Abbreviation admit_ := (admit_ limit windowSize).
Local Abbreviation retained := (retained windowSize).
Local Abbreviation sweep := (sweep windowSize).
Local Abbreviation run := (run limit windowSize).
Local Abbreviation admit_all := (admit_all limit windowSize).
Local Abbreviation in_window := (in_window windowSize).
Local Abbreviation idle := (idle windowSize).
Local Abbreviation bounded := (bounded limit).

Implicit Types (st : gmap string (list Z)) (ts : list Z).

Lemma bucket_insert st (k : string) ts : bucket (<[k := ts]> st) k = ts.
Proof. unfold bucket. by rewrite lookup_insert_eq. Qed.

Lemma bucket_insert_ne st (k k' : string) ts :
  k ≠ k' -> bucket (<[k := ts]> st) k' = bucket st k'.
Proof. intros Hne. unfold bucket. by rewrite lookup_insert_ne. Qed.

Lemma bucket_empty (k : string) : bucket ∅ k = [].
Proof. unfold bucket. by rewrite lookup_empty. Qed.

Lemma bucket_delete st (k : string) : bucket (delete k st) k = [].
Proof. unfold bucket. by rewrite lookup_delete_eq. Qed.

Lemma retained_length (now : Z) ts : length (retained now ts) <= length ts.
Proof. apply length_filter. Qed.

Lemma retained_idle (now : Z) ts :
  Forall (fun t => (t < now - windowSize)%Z) ts -> retained now ts = [].
Proof.
  induction 1 as [|t ts Ht _ IH]; [reflexivity|].
  unfold RateLimiter.retained in *. rewrite filter_cons_False; [exact IH | lia].
Qed.

(** The bucket of the calling source after [admit]. *)
Lemma admit_bucket st (k : string) (now : Z) :
  bucket (snd (admit_ st k now)) k =
    if fst (admit_ st k now)
    then retained now (bucket st k) ++ [now]
    else retained now (bucket st k).
Proof.
  unfold RateLimiter.admit_. case_decide; cbn [fst snd]; apply bucket_insert.
Qed.

Lemma admit_decision st (k : string) (now : Z) :
  fst (admit_ st k now) = bool_decide (length (retained now (bucket st k)) < limit).
Proof.
  unfold RateLimiter.admit_. case_decide; cbn [fst].
  - by rewrite bool_decide_eq_true_2.
  - by rewrite bool_decide_eq_false_2.
Qed.

(** [admit] touches the bucket of the calling source only. *)
Lemma admit_frame st (k k' : string) (now : Z) :
  k ≠ k' -> bucket (snd (admit_ st k now)) k' = bucket st k'.
Proof.
  intros Hne. unfold RateLimiter.admit_.
  case_decide; cbn [snd]; by apply bucket_insert_ne.
Qed.

Lemma sweep_bucket st (k : string) (now : Z) :
  bucket (sweep st now) k = retained now (bucket st k).
Proof.
  unfold RateLimiter.sweep, bucket. rewrite lookup_omap.
  destruct (st !! k) as [ts|]; cbn; [|reflexivity].
  unfold RateLimiter.retained. by destruct (filter _ ts).
Qed.

(** ** The retained count never exceeds the limit *)

Lemma bounded_empty : bounded ∅.
Proof. intros k. rewrite bucket_empty. cbn. lia. Qed.

Lemma bounded_admit st (k : string) (now : Z) :
  bounded st -> bounded (snd (admit_ st k now)).
Proof.
  intros Hb k'. destruct (decide (k = k')) as [<-|Hne].
  - rewrite admit_bucket, admit_decision. case_bool_decide.
    + rewrite length_app. cbn. lia.
    + pose proof (retained_length now (bucket st k)). specialize (Hb k). lia.
  - rewrite admit_frame by done. apply Hb.
Qed.

Lemma bounded_sweep st (now : Z) : bounded st -> bounded (sweep st now).
Proof.
  intros Hb k. rewrite sweep_bucket.
  pose proof (retained_length now (bucket st k)). specialize (Hb k). lia.
Qed.

Lemma bounded_run (ops : list op) st : bounded st -> bounded (run st ops).
Proof.
  revert st. induction ops as [|o ops IH]; intros st Hb; [exact Hb|].
  cbn. apply IH. destruct o; cbn; [by apply bounded_admit | by apply bounded_sweep].
Qed.

(** ** A burst inside one window *)

Local Abbreviation settled := (settled windowSize).

Lemma retained_settled (lo now : Z) ts :
  in_window lo now -> settled lo ts -> retained now ts = since lo ts.
Proof.
  intros [Hlo Hhi]. unfold RateLimiter.retained, since.
  induction 1 as [|t ts Ht _ IH]; [reflexivity|].
  rewrite !filter_cons, IH. unfold RateLimiter.in_window in Ht.
  repeat case_decide; first [reflexivity | lia].
Qed.

Lemma since_in_window (lo : Z) ts :
  (0 <= windowSize)%Z -> settled lo ts -> Forall (in_window lo) (since lo ts).
Proof.
  intros Hw. unfold since. induction 1 as [|t ts Ht _ IH]; [constructor|].
  rewrite filter_cons. case_decide; [|exact IH].
  constructor; [|exact IH]. destruct Ht as [Ht|Ht]; [|exact Ht].
  lia.
Qed.

Lemma since_id (lo : Z) ts : Forall (in_window lo) ts -> since lo ts = ts.
Proof.
  unfold since. induction 1 as [|t ts [Ht _] _ IH]; [reflexivity|].
  by rewrite filter_cons_True, IH.
Qed.

Lemma in_window_settled (lo : Z) ts : Forall (in_window lo) ts -> settled lo ts.
Proof. intros H. eapply Forall_impl; [exact H|]. by right. Qed.

Lemma times_of_same (k : string) (now : Z) (calls : list (string * Z)) :
  times_of k ((k, now) :: calls) = now :: times_of k calls.
Proof. unfold times_of. by rewrite filter_cons_True. Qed.

Lemma times_of_other (k k' : string) (now : Z) (calls : list (string * Z)) :
  k' ≠ k -> times_of k ((k', now) :: calls) = times_of k calls.
Proof. intros Hne. unfold times_of. by rewrite filter_cons_False. Qed.

(** The decisions of a burst, from a store whose bucket for the source
    holds [c] timestamps of the window: the first [limit - c] calls of the
    source are admitted and recorded, the others are not. *)
Lemma burst (k : string) (lo : Z) (calls : list (string * Z)) st :
  (0 <= windowSize)%Z ->
  settled lo (bucket st k) ->
  Forall (in_window lo) (times_of k calls) ->
  let free := limit - length (since lo (bucket st k)) in
  decisions_of k calls (fst (admit_all st calls))
  = replicate (free `min` length (times_of k calls)) true
      ++ replicate (length (times_of k calls) - free) false
  /\ bucket (snd (admit_all st calls)) k
     = match times_of k calls with
       | [] => bucket st k
       | times => since lo (bucket st k) ++ take free times
       end.
Proof.
  intros Hw. revert st.
  induction calls as [|[k' now] calls IH]; intros st Hst Hcalls free.
  { cbn. by rewrite Nat.min_0_r. }
  cbn [RateLimiter.admit_all decisions_of fst snd].
  destruct (String.eqb_spec k' k) as [->|Hne].
  - rewrite times_of_same in *. apply Forall_cons in Hcalls as [Hnow Hcalls].
    pose proof (retained_settled lo now _ Hnow Hst) as Hret.
    pose proof (since_in_window lo _ Hw Hst) as Hlive.
    pose proof (admit_bucket st k now) as Hb.
    pose proof (admit_decision st k now) as Hd.
    rewrite Hret in Hb, Hd.
    set (st' := snd (admit_ st k now)) in *.
    destruct (fst (admit_ st k now)); symmetry in Hd.
    + apply bool_decide_eq_true_1 in Hd.
      assert (Hin : Forall (in_window lo) (bucket st' k)).
      { rewrite Hb. apply Forall_app. split; [exact Hlive|]. by constructor. }
      destruct (IH st' (in_window_settled _ _ Hin) Hcalls) as [IHd IHb].
      rewrite (since_id _ _ Hin), Hb, length_app in IHd, IHb. cbn [length] in IHd, IHb.
      subst free. destruct (limit - length (since lo (bucket st k))) as [|m] eqn:Hfree;
        [lia|].
      replace (limit - (length (since lo (bucket st k)) + 1)) with m in IHd, IHb by lia.
      split.
      * rewrite IHd. cbn [length]. reflexivity.
      * rewrite IHb. rewrite firstn_cons.
        destruct (times_of k calls); [by rewrite take_nil|].
        by rewrite <- app_assoc.
    + apply bool_decide_eq_false_1 in Hd.
      assert (Hin : Forall (in_window lo) (bucket st' k)) by (by rewrite Hb).
      destruct (IH st' (in_window_settled _ _ Hin) Hcalls) as [IHd IHb].
      rewrite (since_id _ _ Hin), Hb in IHd, IHb.
      subst free.
      replace (limit - length (since lo (bucket st k))) with 0 in * by lia.
      split.
      * rewrite IHd. cbn [length]. rewrite !Nat.min_0_l, !Nat.sub_0_r. reflexivity.
      * rewrite IHb. rewrite !take_0, app_nil_r.
        by destruct (times_of k calls); rewrite ?app_nil_r.
  - rewrite times_of_other in * by done.
    destruct (IH (snd (admit_ st k' now))) as [IHd IHb].
    { by rewrite admit_frame. }
    { exact Hcalls. }
    rewrite admit_frame in IHd, IHb by done. split; [exact IHd | exact IHb].
Qed.

Lemma idle_settled st (k : string) (lo : Z) : idle st k lo -> settled lo (bucket st k).
Proof. intros H. eapply Forall_impl; [exact H|]. by left. Qed.

Lemma idle_since st (k : string) (lo : Z) :
  (0 <= windowSize)%Z -> idle st k lo -> since lo (bucket st k) = [].
Proof.
  intros Hw. unfold RateLimiter.idle, since.
  induction 1 as [|t ts Ht _ IH]; [reflexivity|].
  rewrite filter_cons_False; [exact IH | lia].
Qed.

Lemma admitted_replicate (n m : nat) :
  admitted (replicate n true ++ replicate m false) = n.
Proof.
  unfold admitted. rewrite filter_app, length_app.
  assert (Ht : filter (fun d => d = true) (replicate n true) = replicate n true).
  { induction n as [|n IH]; [reflexivity|]. cbn [replicate].
    by rewrite filter_cons_True, IH. }
  assert (Hf : filter (fun d => d = true) (replicate m false) = []).
  { induction m as [|m IH]; [reflexivity|]. cbn [replicate].
    by rewrite filter_cons_False. }
  rewrite Ht, Hf, length_replicate. cbn. lia.
Qed.

Lemma times_of_perm (k : string) (calls calls' : list (string * Z)) :
  calls ≡ₚ calls' -> times_of k calls ≡ₚ times_of k calls'.
Proof. intros Hp. unfold times_of. by rewrite Hp. Qed.

End Limiter.

(** C3. From a store in which the source holds no timestamp of the window,
    a sequence of calls whose [N > limit] calls for that source all fall
    within one window (other sources may call in between) admits exactly the
    first [limit] of them and rejects the others; the same number is admitted
    in every other order of the calls. A rejected call leaves the pruned
    bucket as it is, so the bucket ends as the times of the admitted calls. *)
Theorem admit_burst (limit : nat) (windowSize : Z) (st : gmap string (list Z))
    (k : string) (lo : Z) (calls : list (string * Z)) :
  idle windowSize st k lo ->
  Forall (in_window windowSize lo) (times_of k calls) ->
  limit < length (times_of k calls) ->
  let decisions := decisions_of k calls (fst (admit_all limit windowSize st calls)) in
  decisions = replicate limit true
                ++ replicate (length (times_of k calls) - limit) false
  /\ admitted decisions = limit
  /\ length decisions = length (times_of k calls)
  /\ bucket (snd (admit_all limit windowSize st calls)) k = take limit (times_of k calls)
  /\ (forall calls', calls ≡ₚ calls' ->
        admitted (decisions_of k calls' (fst (admit_all limit windowSize st calls')))
        = limit)
  /\ (forall st' now,
        fst (admit_ limit windowSize st' k now) = false ->
        bucket (snd (admit_ limit windowSize st' k now)) k
        = retained windowSize now (bucket st' k)).
Proof.
  intros Hidle Hcalls Hmore.
  assert (Hw : (0 <= windowSize)%Z).
  { destruct (times_of k calls) as [|now times]; [cbn in Hmore; lia|].
    apply Forall_cons in Hcalls as [[? ?] _]. lia. }
  assert (Hany : forall calls',
             Forall (in_window windowSize lo) (times_of k calls') ->
             limit < length (times_of k calls') ->
             decisions_of k calls' (fst (admit_all limit windowSize st calls'))
             = replicate limit true
                 ++ replicate (length (times_of k calls') - limit) false
             /\ bucket (snd (admit_all limit windowSize st calls')) k
                = take limit (times_of k calls')).
  { intros calls' Hcalls' Hmore'.
    destruct (burst limit windowSize k lo calls' st Hw
                (idle_settled _ _ _ _ Hidle) Hcalls') as [Hd Hb].
    rewrite (idle_since _ _ _ _ Hw Hidle) in Hd, Hb. cbn [length] in Hd, Hb.
    rewrite Nat.sub_0_r in Hd, Hb. split.
    - rewrite Hd. by rewrite Nat.min_l by lia.
    - rewrite Hb. destruct (times_of k calls'); [cbn in Hmore'; lia | reflexivity]. }
  destruct (Hany calls Hcalls Hmore) as [Hd Hb]. cbv zeta.
  split; [exact Hd|]. split; [by rewrite Hd, admitted_replicate|].
  split; [rewrite Hd, length_app, !length_replicate; lia|].
  split; [exact Hb|]. split.
  - intros calls' Hp. pose proof (times_of_perm k _ _ Hp) as Hpt.
    destruct (Hany calls') as [Hd' _].
    + by rewrite <- Hpt.
    + by rewrite <- Hpt.
    + by rewrite Hd', admitted_replicate.
  - intros st' now Hrej. by rewrite admit_bucket, Hrej.
Qed.

Lemma admit_burst_witness :
  let decisions :=
    decisions_of "10.0.0.1" sample_calls (fst (admit_all 2 60%Z ∅ sample_calls)) in
  decisions = replicate 2 true
                ++ replicate (length (times_of "10.0.0.1" sample_calls) - 2) false
  /\ admitted decisions = 2
  /\ length decisions = length (times_of "10.0.0.1" sample_calls)
  /\ bucket (snd (admit_all 2 60%Z ∅ sample_calls)) "10.0.0.1"
     = take 2 (times_of "10.0.0.1" sample_calls)
  /\ (forall calls', sample_calls ≡ₚ calls' ->
        admitted (decisions_of "10.0.0.1" calls' (fst (admit_all 2 60%Z ∅ calls'))) = 2)
  /\ (forall st' now,
        fst (admit_ 2 60%Z st' "10.0.0.1" now) = false ->
        bucket (snd (admit_ 2 60%Z st' "10.0.0.1" now)) "10.0.0.1"
        = retained 60%Z now (bucket st' "10.0.0.1")).
Proof.
  apply (admit_burst 2 60%Z ∅ "10.0.0.1" 0%Z sample_calls).
  - unfold idle. rewrite bucket_empty. constructor.
  - vm_compute. repeat constructor; discriminate.
  - vm_compute. lia.
Defined.

(** The decisions of the sample burst. *)
Example sample_burst_decisions :
  fst (admit_all 2 60%Z ∅ sample_calls) = [true; true; true; false].
Proof. vm_compute. reflexivity. Qed.

(** C8. An [admit] call for a source that has been idle for longer than one
    window is decided exactly as in the store without that source and as in
    the empty store, and leaves the same store and bucket; in every store
    reached from the empty one by [admit] calls and sweeps, no bucket holds
    more timestamps than the limit. *)
Theorem idle_source_is_new (limit : nat) (windowSize : Z) :
  (forall (st : gmap string (list Z)) (k : string) (now : Z),
      idle windowSize st k now ->
      admit_ limit windowSize st k now = admit_ limit windowSize (delete k st) k now
      /\ fst (admit_ limit windowSize st k now) = fst (admit_ limit windowSize ∅ k now)
      /\ bucket (snd (admit_ limit windowSize st k now)) k
         = bucket (snd (admit_ limit windowSize ∅ k now)) k)
  /\ (forall (ops : list (op)) (k : string),
        length (bucket (run limit windowSize ∅ ops) k) <= limit).
Proof.
  split.
  - intros st k now Hidle.
    pose proof (retained_idle windowSize now _ Hidle) as Hret.
    assert (Hnew : forall st0, bucket st0 k = [] ->
              fst (admit_ limit windowSize st k now) = fst (admit_ limit windowSize st0 k now)
              /\ bucket (snd (admit_ limit windowSize st k now)) k
                 = bucket (snd (admit_ limit windowSize st0 k now)) k).
    { intros st0 H0. rewrite !admit_bucket, !admit_decision, H0, Hret. done. }
    split; [|apply Hnew, bucket_empty].
    unfold admit_. rewrite bucket_delete, Hret. cbn [retained filter list_filter].
    case_decide; by rewrite insert_delete_eq.
  - intros ops k. apply bounded_run, bounded_empty.
Qed.

Lemma idle_source_is_new_witness :
  admit_ 10 60%Z sample_store "10.0.0.1" 100%Z
  = admit_ 10 60%Z (delete "10.0.0.1" sample_store) "10.0.0.1" 100%Z
  /\ fst (admit_ 10 60%Z sample_store "10.0.0.1" 100%Z) = fst (admit_ 10 60%Z ∅ "10.0.0.1" 100%Z)
  /\ bucket (snd (admit_ 10 60%Z sample_store "10.0.0.1" 100%Z)) "10.0.0.1"
     = bucket (snd (admit_ 10 60%Z ∅ "10.0.0.1" 100%Z)) "10.0.0.1".
Proof.
  apply (proj1 (idle_source_is_new 10 60) sample_store "10.0.0.1" 100%Z).
  unfold idle, bucket, sample_store. rewrite lookup_singleton_eq. cbn [default].
  repeat constructor.
Defined.

(** * The redactor *)

Import Redactor.

Section Redaction.
Variable sensitiveFields : list string.

Local Abbreviation scrub := (scrub sensitiveFields).

Lemma redact_object (depth : nat) (fields : list (string * json)) :
  redact (S depth) (JObject fields) sensitiveFields
  = JObject ((fun kv => (fst kv, scrub depth (fst kv) (snd kv))) <$> fields).
Proof. reflexivity. Qed.

Lemma redact_array (depth : nat) (items : list json) :
  redact (S depth) (JArray items) sensitiveFields
  = JArray ((fun item => redact depth item sensitiveFields) <$> items).
Proof. reflexivity. Qed.

Lemma assoc_fmap (g : string -> json -> json) (k : string)
    (fields : list (string * json)) :
  assoc k ((fun kv => (fst kv, g (fst kv) (snd kv))) <$> fields)
  = g k <$> assoc k fields.
Proof.
  induction fields as [|[k' x] fields IH]; [reflexivity|].
  cbn. destruct (String.eqb_spec k k') as [->|_]; [reflexivity | exact IH].
Qed.

Lemma assoc_set_fmap (g : string -> json -> json) (k : string) (x y : json)
    (fields : list (string * json)) :
  assoc k fields = Some x ->
  g k y = g k x ->
  (fun kv => (fst kv, g (fst kv) (snd kv))) <$> assoc_set k y fields
  = (fun kv => (fst kv, g (fst kv) (snd kv))) <$> fields.
Proof.
  intros Hx Hg. induction fields as [|[k' x'] fields IH]; [reflexivity|].
  cbn in Hx |- *. destruct (String.eqb_spec k k') as [->|_].
  - injection Hx as ->. cbn. by rewrite Hg.
  - cbn. by rewrite IH.
Qed.

Lemma public_path_cons (s : selector) (path : list selector) :
  public_path sensitiveFields (s :: path) = true ->
  match s with
  | Key k => is_sensitive sensitiveFields k = false
  | Index _ => True
  end /\ public_path sensitiveFields path = true.
Proof.
  unfold public_path. cbn [forallb]. intros [Hs Hp]%andb_prop. split; [|exact Hp].
  destruct s; [by apply negb_true_iff | exact I].
Qed.

(** Within the cap, the value of an outermost sensitive key is the marker. *)
Lemma lookup_redact_sensitive (path : list selector) :
  forall (max_depth : nat) (v : json) (k : string) (x : json),
    public_path sensitiveFields path = true ->
    is_sensitive sensitiveFields k = true ->
    lookup_path v (path ++ [Key k]) = Some x ->
    length path < max_depth ->
    lookup_path (redact max_depth v sensitiveFields) (path ++ [Key k]) = Some REDACTED.
Proof.
  induction path as [|s path IH]; intros [|depth] v k x Hpub Hk Hx Hlen;
    cbn [length] in Hlen; try lia.
  - destruct v as [| | | | |fields]; cbn in Hx; try discriminate.
    rewrite redact_object. cbn. rewrite assoc_fmap.
    destruct (assoc k fields); [|discriminate]. cbn.
    unfold Redactor.scrub. by rewrite Hk.
  - apply public_path_cons in Hpub as [Hs Hpub].
    destruct s as [k'|i]; cbn [app lookup_path] in Hx |- *.
    + destruct v as [| | | | |fields]; try discriminate.
      rewrite redact_object. rewrite assoc_fmap.
      destruct (assoc k' fields) as [child|]; [|discriminate]. cbn in Hx |- *.
      unfold Redactor.scrub. rewrite Hs. apply (IH depth child k x); auto. lia.
    + destruct v as [| | | |items|]; try discriminate.
      rewrite redact_array, list_lookup_fmap.
      destruct (items !! i) as [child|]; [|discriminate]. cbn in Hx |- *.
      apply (IH depth child k x); auto. lia.
Qed.

(** Within the cap, the output is the same whatever a sensitive key held. *)
Lemma redact_alter_sensitive (f : json -> json) (path : list selector) :
  forall (max_depth : nat) (v : json) (k : string),
    is_sensitive sensitiveFields k = true ->
    length path < max_depth ->
    redact max_depth (alter_path f v (path ++ [Key k])) sensitiveFields
    = redact max_depth v sensitiveFields.
Proof.
  induction path as [|s path IH]; intros [|depth] v k Hk Hlen;
    cbn [length] in Hlen; try lia.
  - destruct v as [| | | | |fields]; try reflexivity. cbn [app alter_path].
    destruct (assoc k fields) as [x|] eqn:Hx; [|reflexivity].
    rewrite !redact_object. f_equal.
    apply (assoc_set_fmap (scrub depth) k x); [exact Hx|].
    unfold Redactor.scrub. by rewrite Hk.
  - destruct s as [k'|i]; cbn [app alter_path].
    + destruct v as [| | | | |fields]; try reflexivity.
      destruct (assoc k' fields) as [child|] eqn:Hchild; [|reflexivity].
      rewrite !redact_object. f_equal.
      apply (assoc_set_fmap (scrub depth) k' child); [exact Hchild|].
      unfold Redactor.scrub. destruct (is_sensitive sensitiveFields k'); [reflexivity|].
      apply IH; [exact Hk | lia].
    + destruct v as [| | | |items|]; try reflexivity.
      destruct (items !! i) as [child|] eqn:Hchild; [|reflexivity].
      rewrite !redact_array. f_equal. rewrite list_fmap_insert.
      rewrite IH by (auto; lia). apply list_insert_id.
      by rewrite list_lookup_fmap, Hchild.
Qed.

(** Past the cap, the payload is passed through as it is. *)
Lemma lookup_redact_past_cap (path : list selector) :
  forall (v : json) (rest : list selector) (y : json),
    public_path sensitiveFields path = true ->
    lookup_path v (path ++ rest) = Some y ->
    lookup_path (redact (length path) v sensitiveFields) (path ++ rest) = Some y.
Proof.
  induction path as [|s path IH]; intros v rest y Hpub Hy; [exact Hy|].
  apply public_path_cons in Hpub as [Hs Hpub].
  destruct s as [k'|i]; cbn [app lookup_path length] in Hy |- *.
  - destruct v as [| | | | |fields]; try discriminate.
    rewrite redact_object, assoc_fmap.
    destruct (assoc k' fields) as [child|]; [|discriminate]. cbn in Hy |- *.
    unfold Redactor.scrub. rewrite Hs. by apply IH.
  - destruct v as [| | | |items|]; try discriminate.
    rewrite redact_array, list_lookup_fmap.
    destruct (items !! i) as [child|]; [|discriminate]. cbn in Hy |- *.
    by apply IH.
Qed.

End Redaction.

Lemma lookup_nest (n : nat) (inner : json) (rest : list selector) :
  lookup_path (nest n inner) (nest_path n ++ rest) = lookup_path inner rest.
Proof. induction n as [|n IH]; [reflexivity|]. cbn. exact IH. Qed.

Lemma public_nest_path (n : nat) : public_path ["token"] (nest_path n) = true.
Proof. induction n as [|n IH]; [reflexivity|]. cbn. exact IH. Qed.

Lemma length_nest_path (n : nat) : length (nest_path n) = n.
Proof. apply length_replicate. Qed.

(** C2 (as amended). For a sensitive key that lies under fewer than
    [max_depth] mappings and sequence positions, none of them under a
    sensitive key itself, the output holds the marker as the key's value, and
    the whole output is the same whatever value the key held; what lies
    [max_depth] levels down or deeper is passed through as it is. *)
Theorem redact_within_cap (max_depth : nat) (sensitiveFields : list string)
    (v : json) (path : list selector) (k : string) (x : json) :
  public_path sensitiveFields path = true ->
  is_sensitive sensitiveFields k = true ->
  lookup_path v (path ++ [Key k]) = Some x ->
  length path < max_depth ->
  lookup_path (redact max_depth v sensitiveFields) (path ++ [Key k]) = Some REDACTED
  /\ (forall y : json,
        redact max_depth (alter_path (fun _ => y) v (path ++ [Key k])) sensitiveFields
        = redact max_depth v sensitiveFields)
  /\ (forall (deep rest : list selector) (y : json),
        public_path sensitiveFields deep = true ->
        length deep = max_depth ->
        lookup_path v (deep ++ rest) = Some y ->
        lookup_path (redact max_depth v sensitiveFields) (deep ++ rest) = Some y).
Proof.
  intros Hpub Hk Hx Hlen. split; [|split].
  - by apply (lookup_redact_sensitive sensitiveFields path max_depth v k x).
  - intros y. by apply redact_alter_sensitive.
  - intros deep rest y Hdeep <- Hy. by apply lookup_redact_past_cap.
Qed.

Lemma redact_within_cap_witness :
  lookup_path (redact 8 sample_context ["password"; "token"])
    ([Key "attempts"; Index 0] ++ [Key "token"]) = Some REDACTED
  /\ (forall y : json,
        redact 8 (alter_path (fun _ => y) sample_context
                    ([Key "attempts"; Index 0] ++ [Key "token"]))
          ["password"; "token"]
        = redact 8 sample_context ["password"; "token"])
  /\ (forall (deep rest : list selector) (y : json),
        public_path ["password"; "token"] deep = true ->
        length deep = 8 ->
        lookup_path sample_context (deep ++ rest) = Some y ->
        lookup_path (redact 8 sample_context ["password"; "token"]) (deep ++ rest)
        = Some y).
Proof.
  apply (redact_within_cap 8 ["password"; "token"] sample_context
           [Key "attempts"; Index 0] "token" (JNumber "7")).
  - vm_compute. reflexivity.
  - vm_compute. reflexivity.
  - vm_compute. reflexivity.
  - cbn. lia.
Defined.

(** The scenario of the specification: both secrets are replaced. *)
Example redact_sample_context :
  redact 8 sample_context ["password"; "token"]
  = JObject [("password", REDACTED);
             ("nested", JObject [("Token", REDACTED)]);
             ("attempts", JArray [JObject [("token", REDACTED)]])].
Proof. vm_compute. reflexivity. Qed.

(** C2 (as stated) fails under every depth cap: a token that lies
    [max_depth] mappings down comes out with its value; with a cap of 2, the
    payload with the token two mappings down is returned as it is. Within the
    cap, a password that the payload repeats under another key still stands
    in the output, under that key. *)
Lemma redact_misses_past_cap :
  ~ (exists max_depth : nat, redacts_everywhere max_depth)
  /\ redact 2 (nest 2 (JObject [("token", JString "xyz")])) ["token"]
     = nest 2 (JObject [("token", JString "xyz")])
  /\ lookup_path (redact 2 (nest 2 (JObject [("token", JString "xyz")])) ["token"])
       [Key "nested"; Key "nested"; Key "token"] = Some (JString "xyz")
  /\ occurs (JString "abc")
       (redact 8 (JObject [("password", JString "abc"); ("note", JString "abc")])
          ["password"]).
Proof.
  split; [|split; [|split]]; [|vm_compute; reflexivity|vm_compute; reflexivity|
                              by exists [Key "note"]].
  intros [max_depth Hall].
  set (inner := JObject [("token", JString "xyz")]).
  assert (Hx : lookup_path (nest max_depth inner) (nest_path max_depth ++ [Key "token"])
               = Some (JString "xyz")) by (by rewrite lookup_nest).
  destruct (Hall ["token"] (nest max_depth inner) (nest_path max_depth) "token"
              (JString "xyz") (public_nest_path max_depth) eq_refl Hx) as [Hmark _].
  pose proof (lookup_redact_past_cap ["token"] (nest_path max_depth)
                (nest max_depth inner) [Key "token"] (JString "xyz")
                (public_nest_path max_depth) Hx) as Hkept.
  rewrite length_nest_path in Hkept. rewrite Hkept in Hmark. discriminate.
Qed.

(** * The reporter: the listeners end to end *)

Section Listeners.
Variable h : host.

Lemma rejection_payload_picked (event : value) (log : list effect) :
  ToBoolean event = true ->
  rejection_payload h event log =
    buildPayload h (VString (lit "error")) (picked_message (field event "reason"))
      (object_literal [("stack", picked_stack (field event "reason"))]) log.
Proof.
  intros Hev. unfold rejection_payload, picked_message, picked_stack, bind, lift, ret.
  rewrite (Get_truthy _ _ Hev).
  destruct (ToBoolean (field event "reason")) eqn:Hr; [|reflexivity].
  rewrite !(Get_truthy _ _ Hr).
  destruct (String.eqb (typeof (field event "reason")) "string");
    destruct (ToBoolean (field (field event "reason") "message"));
    destruct (ToBoolean (field (field event "reason") "stack")); reflexivity.
Qed.

Lemma truncate_truthy (v : value) : ToBoolean (truncate v) = ToBoolean v.
Proof.
  destruct (String.eqb_spec (typeof v) "string") as [Hty|Hty];
    [|by rewrite truncate_not_string].
  destruct v as [| | | | |s| |[] ? ?]; try discriminate.
  rewrite truncate_string.
  destruct (Nat.ltb_spec MAX_MESSAGE_LENGTH (length s)) as [Hlong|_]; [|reflexivity].
  cbn [ToBoolean]. rewrite !bool_decide_eq_false_2; [reflexivity| |].
  - intros ->. cbn in Hlong. lia.
  - intros Hnil. apply (f_equal length) in Hnil. rewrite length_app in Hnil.
    unfold ELLIPSIS in Hnil. cbn [length] in Hnil. lia.
Qed.

Lemma picked_message_truthy (reason : value) : ToBoolean (picked_message reason) = true.
Proof.
  unfold picked_message. destruct (ToBoolean reason) eqn:Hr; [|reflexivity].
  destruct (String.eqb (typeof reason) "string"); [exact Hr|].
  by destruct (ToBoolean (field reason "message")) eqn:Hm.
Qed.

Lemma or_truthy (a b : value) : ToBoolean b = true -> ToBoolean (or_ a b) = true.
Proof. intros Hb. unfold or_. by destruct (ToBoolean a) eqn:Ha. Qed.

Lemma or_left (a b : value) : ToBoolean a = true -> or_ a b = a.
Proof. intros Ha. unfold or_. by rewrite Ha. Qed.

Lemma payload_field (level message url ua ts stack extra : value) :
  let payload :=
    object_literal
      [("level", level); ("message", message); ("url", url); ("ua", ua);
       ("ts", ts); ("stack", stack); ("extra", extra)] in
  field payload "level" = level /\ field payload "stack" = stack
  /\ field payload "extra" = extra.
Proof. by repeat split. Qed.

(** What a listener does with the payload it built, or with the failure. *)
Lemma deliver_eval (build : M value) (log : list effect) :
  bind build (send h) log =
    match build log with
    | (Normal payload, log') => (Normal tt, log' ++ sent h payload)
    | (Throw e, log') => (Throw e, log')
    end.
Proof.
  unfold bind. destruct (build log) as [[payload|e] log']; [|reflexivity].
  apply send_eval.
Qed.

End Listeners.

(** A rejection whose reason is a string is reported under that string:
    the payload's message is [truncate] of the reason, or the placeholder
    for the empty string, its stack is empty and its extra undefined, and the
    listener builds it whatever the string is. *)
Theorem rejection_string_reason (h : host) (event : value) (s : jsstring)
    (log : list effect) :
  ToBoolean event = true ->
  field event "reason" = VString s ->
  exists payload : value,
    fst (rejection_payload h event log) = Normal payload
    /\ field payload "message"
       = (if bool_decide (s = []) then VString (lit "Unhandled promise rejection")
          else truncate (VString s))
    /\ field payload "stack" = VString (lit "")
    /\ field payload "extra" = VUndefined
    /\ field payload "level" = VString (lit "error").
Proof.
  intros Hev Hs. rewrite (rejection_payload_picked h event log Hev), Hs.
  rewrite buildPayload_eval. cbn [fst].
  destruct (bool_decide_reflect (s = [])) as [->|Hne].
  - eexists. split; [reflexivity|]. by repeat split.
  - assert (Ht : ToBoolean (VString s) = true).
    { cbn. by rewrite bool_decide_eq_false_2. }
    unfold picked_message, picked_stack. rewrite Ht. cbn [typeof String.eqb].
    eexists. split; [reflexivity|].
    rewrite payload_message, (or_left _ _ Ht). by repeat split.
Qed.

Lemma rejection_string_reason_witness :
  exists payload : value,
    fst (rejection_payload offline_page
           (object_literal [("reason", VString (lit "timeout"))]) []) = Normal payload
    /\ field payload "message"
       = (if bool_decide (lit "timeout" = [])
          then VString (lit "Unhandled promise rejection")
          else truncate (VString (lit "timeout")))
    /\ field payload "stack" = VString (lit "")
    /\ field payload "extra" = VUndefined
    /\ field payload "level" = VString (lit "error").
Proof.
  apply (rejection_string_reason offline_page
           (object_literal [("reason", VString (lit "timeout"))]) (lit "timeout") []);
    reflexivity.
Defined.

Lemma truncated_length (s r : jsstring) :
  truncate (VString s) = VString r ->
  length r <= MAX_MESSAGE_LENGTH + length ELLIPSIS /\ length r <= length s.
Proof.
  rewrite truncate_string.
  destruct (Nat.ltb_spec MAX_MESSAGE_LENGTH (length s)); intros [= <-].
  - rewrite length_app, length_take. unfold ELLIPSIS. cbn [length]. lia.
  - unfold ELLIPSIS. cbn [length]. lia.
Qed.

Lemma truncate_string_inv (v : value) (r : jsstring) :
  truncate v = VString r -> exists s, v = VString s.
Proof.
  destruct (String.eqb_spec (typeof v) "string") as [Hty|Hty].
  - destruct v as [| | | | |s| |[] ? ?]; try discriminate. eauto.
  - rewrite truncate_not_string by done. intros ->. by destruct Hty.
Qed.

(** [truncate] never makes a string longer, and keeps its first 500 code
    units: the one-unit marker replaces at least one cut unit. *)
Theorem truncate_never_longer (s r : jsstring) :
  truncate (VString s) = VString r ->
  length r <= length s
  /\ take MAX_MESSAGE_LENGTH r = take MAX_MESSAGE_LENGTH s.
Proof.
  rewrite truncate_string.
  destruct (Nat.ltb_spec MAX_MESSAGE_LENGTH (length s)) as [Hlong|_]; intros [= <-].
  - split.
    + rewrite length_app, length_take. unfold ELLIPSIS. cbn [length]. lia.
    + by rewrite take_app_length' by (rewrite length_take; lia).
  - split; [lia | reflexivity].
Qed.

Lemma truncate_never_longer_witness :
  length (replicate 500 120%N ++ ELLIPSIS) <= length (replicate 501 120%N)
  /\ take MAX_MESSAGE_LENGTH (replicate 500 120%N ++ ELLIPSIS)
     = take MAX_MESSAGE_LENGTH (replicate 501 120%N).
Proof.
  apply (truncate_never_longer (replicate 501 120%N) (replicate 500 120%N ++ ELLIPSIS)).
  vm_compute. reflexivity.
Defined.

(** Every payload the builder returns is bounded: its stack is a string of
    at most 500 code units and the marker, and so is its message whenever the
    message is a string. *)
Theorem payload_bounded (h : host) (level message metadata : value)
    (log : list effect) (payload : value) :
  fst (buildPayload h level message metadata log) = Normal payload ->
  (exists r, field payload "stack" = VString r
             /\ length r <= MAX_MESSAGE_LENGTH + length ELLIPSIS)
  /\ (forall m, field payload "message" = VString m ->
                length m <= MAX_MESSAGE_LENGTH + length ELLIPSIS).
Proof.
  rewrite buildPayload_eval. cbn [fst].
  destruct (stack_text metadata) as [stack|e]; [|discriminate].
  intros [= <-]. split.
  - destruct (truncate (VString stack)) as [| | | | |r| |] eqn:Hr;
      try (rewrite truncate_string in Hr; by destruct (_ <? _)%nat).
    exists r. split; [reflexivity|]. by apply (truncated_length stack).
  - intros m. rewrite payload_message. intros Hm.
    destruct (truncate_string_inv _ _ Hm) as [s Hs]. rewrite Hs in Hm.
    by apply (truncated_length s).
Qed.

Lemma payload_bounded_witness :
  (exists r, field (object_literal
                      [("level", VString (lit "error"));
                       ("message", VString (replicate 500 120%N ++ ELLIPSIS));
                       ("url", VString (location_href offline_page));
                       ("ua", VString (navigator_userAgent offline_page));
                       ("ts", VString (Date_toISOString offline_page));
                       ("stack", VString (lit ""));
                       ("extra", VUndefined)]) "stack" = VString r
             /\ length r <= MAX_MESSAGE_LENGTH + length ELLIPSIS)
  /\ (forall m, field (object_literal
                         [("level", VString (lit "error"));
                          ("message", VString (replicate 500 120%N ++ ELLIPSIS));
                          ("url", VString (location_href offline_page));
                          ("ua", VString (navigator_userAgent offline_page));
                          ("ts", VString (Date_toISOString offline_page));
                          ("stack", VString (lit ""));
                          ("extra", VUndefined)]) "message" = VString m ->
                length m <= MAX_MESSAGE_LENGTH + length ELLIPSIS).
Proof.
  apply (payload_bounded offline_page (VString (lit "error"))
           (VString (replicate 600 120%N)) VUndefined []).
  vm_compute. reflexivity.
Defined.

(** Both listeners report a message: the message of every payload they
    build is truthy, never the empty string, [undefined] or [null]. *)
Theorem listeners_report_a_message (h : host) (event : value) (log : list effect)
    (payload : value) :
  ToBoolean event = true ->
  fst (error_payload h event log) = Normal payload
  \/ fst (rejection_payload h event log) = Normal payload ->
  ToBoolean (field payload "message") = true.
Proof.
  intros Hev [Hbuilt|Hbuilt].
  - rewrite (error_payload_eval h event log Hev), buildPayload_eval in Hbuilt.
    cbn [fst] in Hbuilt. destruct (stack_text _); [|discriminate].
    injection Hbuilt as <-. rewrite payload_message, truncate_truthy.
    rewrite or_left; by apply or_truthy.
  - rewrite (rejection_payload_picked h event log Hev), buildPayload_eval in Hbuilt.
    cbn [fst] in Hbuilt. destruct (stack_text _); [|discriminate].
    injection Hbuilt as <-. rewrite payload_message, truncate_truthy.
    rewrite or_left; apply picked_message_truthy.
Qed.

Lemma listeners_report_a_message_witness :
  ToBoolean (field (object_literal
                      [("level", VString (lit "error"));
                       ("message", VString (lit "Script error."));
                       ("url", VString (location_href offline_page));
                       ("ua", VString (navigator_userAgent offline_page));
                       ("ts", VString (Date_toISOString offline_page));
                       ("stack", VString (lit ""));
                       ("extra", object_literal
                                   [("filename", VString (lit ""));
                                    ("lineno", VNumber (Number true (lit "0")));
                                    ("colno", VNumber (Number true (lit "0")))])])
               "message") = true.
Proof.
  apply (listeners_report_a_message offline_page script_error_event []);
    [reflexivity|]. left. vm_compute. reflexivity.
Defined.

Lemma sent_no_unhandled (h : host) (payload : value) :
  Forall (fun e => is_unhandled e = false) (sent h payload).
Proof.
  unfold sent. destruct (JSON_stringify h payload); [|constructor].
  destruct (navigator_sendBeacon h); [|by repeat constructor].
  destruct (Blob_new h _ _); by repeat constructor.
Qed.

Lemma sent_deliveries (h : host) (payload : value) : deliveries (sent h payload) <= 1.
Proof. unfold deliveries. etrans; [apply length_filter | apply sent_at_most_one]. Qed.

(** How a listener that builds with [build] and then sends ends. *)
Lemma listener_eval (h : host) (build : M value) (log : list effect)
    (built : completion value) :
  build log = (built, log ++ payload_reads) ->
  exists added : list effect,
    snd (bind build (send h) log) = log ++ payload_reads ++ added
    /\ deliveries added <= 1
    /\ Forall (fun e => is_unhandled e = false) added
    /\ match built with
       | Normal payload =>
           fst (bind build (send h) log) = Normal tt
           /\ send h payload (log ++ payload_reads)
              = (Normal tt, (log ++ payload_reads) ++ added)
       | Throw e => fst (bind build (send h) log) = Throw e /\ added = []
       end.
Proof.
  intros Hbuild. rewrite deliver_eval, Hbuild. destruct built as [payload|e].
  - exists (sent h payload). cbn [fst snd]. rewrite <- app_assoc.
    split; [reflexivity|]. split; [apply sent_deliveries|].
    split; [apply sent_no_unhandled|]. split; [reflexivity|].
    rewrite send_eval. by rewrite <- app_assoc.
  - exists []. cbn [fst snd]. rewrite app_nil_r.
    split; [reflexivity|]. split; [cbn; lia|]. by repeat split.
Qed.

(** One event, at most one delivery: each listener reads the URL, the user
    agent and the clock, then makes at most one delivery attempt, with the
    payload it built, and returns normally; when building the payload throws,
    the listener ends in that exception and nothing is delivered. *)
Theorem listener_delivers_once (h : host) (event : value) (log : list effect) :
  ToBoolean event = true ->
  (exists added : list effect,
      snd (on_error h event log) = log ++ payload_reads ++ added
      /\ deliveries added <= 1
      /\ Forall (fun e => is_unhandled e = false) added
      /\ match fst (error_payload h event log) with
         | Normal payload =>
             fst (on_error h event log) = Normal tt
             /\ send h payload (log ++ payload_reads)
                = (Normal tt, (log ++ payload_reads) ++ added)
         | Throw e => fst (on_error h event log) = Throw e /\ added = []
         end)
  /\ (exists added : list effect,
        snd (on_unhandledrejection h event log) = log ++ payload_reads ++ added
        /\ deliveries added <= 1
        /\ Forall (fun e => is_unhandled e = false) added
        /\ match fst (rejection_payload h event log) with
           | Normal payload =>
               fst (on_unhandledrejection h event log) = Normal tt
               /\ send h payload (log ++ payload_reads)
                  = (Normal tt, (log ++ payload_reads) ++ added)
           | Throw e =>
               fst (on_unhandledrejection h event log) = Throw e /\ added = []
           end).
Proof.
  intros Hev. split.
  - change (on_error h event log) with (bind (error_payload h event) (send h) log).
    apply listener_eval.
    rewrite (error_payload_eval h event log Hev), buildPayload_eval. reflexivity.
  - change (on_unhandledrejection h event log)
      with (bind (rejection_payload h event) (send h) log).
    apply listener_eval.
    rewrite (rejection_payload_picked h event log Hev), buildPayload_eval. reflexivity.
Qed.

Lemma listener_delivers_once_witness :
  exists added : list effect,
    snd (on_error offline_page script_error_event [])
    = [] ++ payload_reads ++ added
    /\ deliveries added <= 1
    /\ Forall (fun e => is_unhandled e = false) added
    /\ match fst (error_payload offline_page script_error_event []) with
       | Normal payload =>
           fst (on_error offline_page script_error_event []) = Normal tt
           /\ send offline_page payload ([] ++ payload_reads)
              = (Normal tt, ([] ++ payload_reads) ++ added)
       | Throw e =>
           fst (on_error offline_page script_error_event []) = Throw e /\ added = []
       end.
Proof.
  apply (proj1 (listener_delivers_once offline_page script_error_event [] eq_refl)).
Defined.

(** With [sendBeacon] present, [fetch] is never called: a payload that
    serializes into a blob gives exactly one [sendBeacon] call to the
    endpoint, also when [sendBeacon] refuses the data or throws. *)
Theorem send_beacon_no_fallback (h : host) (payload : value) (log : list effect)
    (sendBeacon : list N -> blob -> completion bool) :
  navigator_sendBeacon h = Some sendBeacon ->
  exists added : list effect,
    send h payload log = (Normal tt, log ++ added)
    /\ (forall url init, Fetch url init ∉ added)
    /\ (forall body data,
          JSON_stringify h payload = Normal body ->
          Blob_new h [body] (lit "application/json") = Normal data ->
          added = [SendBeacon ENDPOINT data]).
Proof.
  intros Hsb. exists (sent h payload). split; [apply send_eval|].
  unfold sent. rewrite Hsb.
  destruct (JSON_stringify h payload) as [body|e].
  - destruct (Blob_new h [body] (lit "application/json")) as [data|e] eqn:Hblob.
    + split.
      * intros url init [Habs|Habs]%elem_of_cons; [discriminate|].
        by apply elem_of_nil in Habs.
      * intros body' data' [= <-] Hdata. congruence.
    + split; [intros url init Habs; by apply elem_of_nil in Habs |].
      intros body' data' [= <-] Hdata. congruence.
  - split; [intros url init Habs; by apply elem_of_nil in Habs | discriminate].
Qed.

Lemma send_beacon_no_fallback_witness :
  exists added : list effect,
    send beacon_page (object_literal []) [] = (Normal tt, [] ++ added)
    /\ (forall url init, Fetch url init ∉ added)
    /\ (forall body data,
          JSON_stringify beacon_page (object_literal []) = Normal body ->
          Blob_new beacon_page [body] (lit "application/json") = Normal data ->
          added = [SendBeacon ENDPOINT data]).
Proof.
  apply (send_beacon_no_fallback beacon_page (object_literal []) []
           (fun _ _ => Normal false)).
  reflexivity.
Defined.

(** On the page whose [sendBeacon] refuses, the data is offered once. *)
Example send_refused_beacon :
  send beacon_page (object_literal []) [] =
    (Normal tt,
     [SendBeacon ENDPOINT (Blob [VString (lit "{}")] (lit "application/json"))]).
Proof. reflexivity. Qed.

(** An error event without an error object (a cross-origin script error,
    whose [event.error] is null) is always reported: the payload is built
    with an empty stack, the level "error", the event's message or the
    placeholder, and the event's filename, lineno and colno as extra. *)
Theorem error_without_error_object (h : host) (event : value) (log : list effect) :
  ToBoolean event = true ->
  ToBoolean (field event "error") = false ->
  exists payload : value,
    fst (error_payload h event log) = Normal payload
    /\ field payload "stack" = VString (lit "")
    /\ field payload "level" = VString (lit "error")
    /\ field payload "message"
       = truncate (or_ (field event "message") (VString (lit "Script error")))
    /\ field payload "extra"
       = object_literal [("filename", field event "filename");
                         ("lineno", field event "lineno");
                         ("colno", field event "colno")].
Proof.
  intros Hev Herr. rewrite (error_payload_eval h event log Hev), buildPayload_eval.
  rewrite stack_text_object_literal, Herr, Herr. cbn [fst].
  eexists. split; [reflexivity|]. rewrite payload_message.
  rewrite or_left by (by apply or_truthy). by repeat split.
Qed.

Lemma error_without_error_object_witness :
  exists payload : value,
    fst (error_payload offline_page script_error_event []) = Normal payload
    /\ field payload "stack" = VString (lit "")
    /\ field payload "level" = VString (lit "error")
    /\ field payload "message"
       = truncate (or_ (field script_error_event "message")
                     (VString (lit "Script error")))
    /\ field payload "extra"
       = object_literal [("filename", field script_error_event "filename");
                         ("lineno", field script_error_event "lineno");
                         ("colno", field script_error_event "colno")].
Proof.
  apply (error_without_error_object offline_page script_error_event []); reflexivity.
Defined.

(** A rejection with an error for a reason: the reason's message and stack
    strings are each truncated on their own, so a long stack is cut under a
    short message and the other way round; no extra is attached. *)
Theorem rejection_error_reason (h : host) (event : value) (m k : jsstring)
    (log : list effect) :
  ToBoolean event = true ->
  field (field event "reason") "message" = VString m ->
  m ≠ [] ->
  field (field event "reason") "stack" = VString k ->
  exists payload : value,
    fst (rejection_payload h event log) = Normal payload
    /\ field payload "message" = truncate (VString m)
    /\ field payload "stack" = truncate (VString k)
    /\ field payload "extra" = VUndefined.
Proof.
  intros Hev Hm Hne Hk. set (reason := field event "reason") in *.
  assert (Htm : ToBoolean (VString m) = true).
  { cbn. by rewrite bool_decide_eq_false_2. }
  assert (Hr : ToBoolean reason = true).
  { destruct (ToBoolean reason) eqn:Hr; [reflexivity|].
    rewrite (field_falsy _ _ Hr) in Hm. discriminate. }
  assert (Hty : String.eqb (typeof reason) "string" = false).
  { destruct reason as [| | | | |s| |[] ? ?]; try reflexivity. discriminate. }
  rewrite (rejection_payload_picked h event log Hev), buildPayload_eval.
  fold reason. unfold picked_message, picked_stack.
  rewrite Hr, Hty, Hm, Hk, Htm, stack_text_object_literal.
  destruct (bool_decide_reflect (k = [])) as [->|Hkne].
  - cbn [fst]. eexists. split; [reflexivity|].
    rewrite payload_message, (or_left _ _ Htm). by repeat split.
  - assert (Htk : ToBoolean (VString k) = true).
    { cbn. by rewrite bool_decide_eq_false_2. }
    rewrite Htk, Htk. cbn [String_ fst]. eexists. split; [reflexivity|].
    rewrite payload_message, (or_left _ _ Htm). by repeat split.
Qed.

Lemma rejection_error_reason_witness :
  exists payload : value,
    fst (rejection_payload offline_page
           (rejection_event (lit "boom") (replicate 600 120%N)) []) = Normal payload
    /\ field payload "message" = truncate (VString (lit "boom"))
    /\ field payload "stack" = truncate (VString (replicate 600 120%N))
    /\ field payload "extra" = VUndefined.
Proof.
  apply (rejection_error_reason offline_page
           (rejection_event (lit "boom") (replicate 600 120%N))
           (lit "boom") (replicate 600 120%N) []);
    [reflexivity | reflexivity | discriminate | reflexivity].
Defined.

(** * The attendance page *)

Import Attendance.

Section Page.
Variable error_object : exn -> value.
Variable upto : value -> nat.

Variable has_records : value -> bool.
Variable renderAttendanceTable :
  value -> value -> list value -> completion unit * list value.

Local Abbreviation schedule_chain := (schedule_chain error_object upto).
Local Abbreviation save_chain := (save_chain error_object).
Local Abbreviation update_chain := (update_chain error_object).

Lemma truthy_string (s : list N) : ToBoolean (VString s) = negb (bool_decide (s = [])).
Proof. reflexivity. Qed.

Lemma truthy_nonempty (s : list N) : s ≠ [] -> ToBoolean (VString s) = true.
Proof. intros Hs. cbn. by rewrite bool_decide_eq_false_2. Qed.

Lemma plus_string (prefix s : list N) : plus prefix (VString s) = Normal (prefix ++ s).
Proof. reflexivity. Qed.

Lemma showMessage_danger (msg : list N) (pg : page) :
  messageDiv_assigned (showMessage msg (lit "danger") pg) = danger_alert msg.
Proof. reflexivity. Qed.

Lemma plus_converts (prefix : list N) (v : value) (detail : list N) :
  typeof v <> "symbol" -> String_ v = Normal detail ->
  plus prefix v = Normal (prefix ++ detail).
Proof.
  intros Hsym Hdetail. unfold plus. rewrite Hdetail.
  destruct v; try reflexivity. by destruct Hsym.
Qed.

Lemma plus_throws (prefix : list N) (v : value) :
  typeof v = "symbol" \/ String_ v = Throw TypeError ->
  plus prefix v = Throw TypeError.
Proof.
  unfold plus. intros [Hsym|Hthrows].
  - destruct v as [| | | | | | |[] ? ?]; try discriminate. reflexivity.
  - rewrite Hthrows. by destruct v.
Qed.

Lemma printable_plus (prefix : list N) (v : value) :
  printable v -> exists s, plus prefix v = Normal (prefix ++ s).
Proof. intros [s Hs]. exists s. apply Hs. Qed.

Lemma is_zero_truthy (v : value) : ToBoolean v = true -> is_zero v = false.
Proof. destruct v as [| | |n| | | |]; try reflexivity. cbn. by destruct (zero_or_nan n). Qed.

(** The schedule chain on a body that parsed and has a readable [lessons]. *)
Lemma schedule_chain_parsed (resp : response) (data lessons : value) (pg : page) :
  body resp = Parsed data ->
  Get data "lessons" = Normal lessons ->
  schedule_chain (Responded resp) pg =
    if ToBoolean lessons
    then (Fulfilled tt,
          set_options (lessonSelect_options pg ++ lesson_options (upto lessons))
            (clearMessage pg))
    else (Fulfilled tt,
          showMessage (text "Seçilen sınıf için belirtilen günde ders bulunmamaktadır.")
            (lit "warning") pg).
Proof.
  intros Hbody Hget.
  unfold Attendance.schedule_chain, then_, catch_, fetch_result, resp_json.
  rewrite Hbody. cbn [fst snd]. rewrite Hget. unfold or_.
  destruct (ToBoolean lessons) eqn:Ht.
  - rewrite (is_zero_truthy _ Ht). reflexivity.
  - reflexivity.
Qed.

Lemma schedule_lists_lessons_aux (resp : response) (data lessons : value) (pg : page) :
  body resp = Parsed data ->
  Get data "lessons" = Normal lessons ->
  ToBoolean lessons = true ->
  schedule_chain (Responded resp) pg
  = (Fulfilled tt,
     set_options (lessonSelect_options pg ++ lesson_options (upto lessons))
       (clearMessage pg)).
Proof.
  intros Hbody Hget Ht.
  by rewrite (schedule_chain_parsed resp data lessons pg Hbody Hget), Ht.
Qed.

(** The schedule chain on a reason that reaches its [catch]. *)
Lemma schedule_chain_caught (x : exchange) (reason : value) (pg : page) :
  match x with
  | Unreachable err => reason = err
  | Responded resp =>
      match body resp with
      | Malformed err => reason = err
      | Parsed data => exists e, Get data "lessons" = Throw e /\ reason = error_object e
      end
  end ->
  schedule_chain x pg =
    match plus (text "Ders programı alınamadı: ") reason with
    | Normal msg => (Fulfilled tt, showMessage msg (lit "danger") pg)
    | Throw e => (Rejected (error_object e), pg)
    end.
Proof.
  unfold Attendance.schedule_chain, then_, catch_, fetch_result, resp_json.
  destruct x as [err|resp]; [by intros ->|].
  destruct (body resp) as [data|err]; [|by intros ->].
  intros (e & Hget & ->). cbn [fst snd]. rewrite Hget. reflexivity.
Qed.

Local Abbreviation students_chain := (students_chain error_object).
Local Abbreviation attendance_chain :=
  (attendance_chain error_object has_records renderAttendanceTable).
Local Abbreviation step := (step error_object upto has_records renderAttendanceTable).

(** The reason an exchange hands on when its body cannot be read. *)
Lemma unread_cases (x : exchange) :
  (exists err, fetch_result x = Rejected err
               \/ exists resp, x = Responded resp /\ body resp = Malformed err)
  \/ (exists resp data, x = Responded resp /\ body resp = Parsed data).
Proof.
  destruct x as [err|resp]; [left; exists err; by left|].
  destruct (body resp) as [data|err] eqn:Hbody; [right; eauto|].
  left. exists err. right. eauto.
Qed.

Lemma schedule_chain_buttons (x : exchange) (pg : page) :
  saveButton_display (snd (schedule_chain x pg)) = saveButton_display pg
  /\ updateButton_display (snd (schedule_chain x pg)) = updateButton_display pg.
Proof.
  assert (Hcaught : forall reason,
             saveButton_display
               (snd (match plus (text "Ders programı alınamadı: ") reason with
                     | Normal msg => (Fulfilled tt, showMessage msg (lit "danger") pg)
                     | Throw e => (Rejected (error_object e), pg)
                     end)) = saveButton_display pg
             /\ updateButton_display
                  (snd (match plus (text "Ders programı alınamadı: ") reason with
                        | Normal msg => (Fulfilled tt, showMessage msg (lit "danger") pg)
                        | Throw e => (Rejected (error_object e), pg)
                        end)) = updateButton_display pg).
  { intros reason. by destruct (plus _ reason). }
  destruct x as [err|resp].
  - rewrite (schedule_chain_caught (Unreachable err) err pg eq_refl). apply Hcaught.
  - destruct (body resp) as [data|err] eqn:Hbody.
    + destruct (Get data "lessons") as [lessons|e] eqn:Hget.
      * rewrite (schedule_chain_parsed resp data lessons pg Hbody Hget).
        by destruct (ToBoolean lessons).
      * rewrite (schedule_chain_caught (Responded resp) (error_object e) pg).
        -- apply Hcaught.
        -- cbn [body]. rewrite Hbody. eauto.
    + rewrite (schedule_chain_caught (Responded resp) err pg).
      * apply Hcaught.
      * by rewrite Hbody.
Qed.

Lemma students_chain_parsed (c d l : list N) (resp : response) (students : value)
    (pg : page) :
  body resp = Parsed students ->
  students_chain c d l (Responded resp) pg
  = (Fulfilled tt,
     fetch_get (lit "/api/attendance?classroom_id=" ++ c ++ lit "&date=" ++ d
                  ++ lit "&lesson_no=" ++ l) pg).
Proof.
  intros Hbody.
  unfold Attendance.students_chain, then_, catch_, fetch_result, resp_json.
  by rewrite Hbody.
Qed.

Lemma students_chain_caught (c d l : list N) (x : exchange) (err : value) (pg : page) :
  (fetch_result x = Rejected err
   \/ exists resp, x = Responded resp /\ body resp = Malformed err) ->
  students_chain c d l x pg =
    match plus (text "Öğrenciler yüklenirken hata oluştu: ") err with
    | Normal msg => (Fulfilled tt, showMessage msg (lit "danger") pg)
    | Throw e => (Rejected (error_object e), pg)
    end.
Proof.
  unfold Attendance.students_chain, then_, catch_, resp_json.
  intros [Hx | (resp & -> & Hbody)].
  - by rewrite Hx.
  - cbn [fetch_result fst snd]. by rewrite Hbody.
Qed.

Lemma attendance_chain_unread (students : value) (x : exchange) (err : value)
    (pg : page) :
  (fetch_result x = Rejected err
   \/ exists resp, x = Responded resp /\ body resp = Malformed err) ->
  attendance_chain students x pg = (Rejected err, pg).
Proof.
  unfold Attendance.attendance_chain, then_, resp_json.
  intros [Hx | (resp & -> & Hbody)].
  - by rewrite Hx.
  - cbn [fetch_result fst snd]. by rewrite Hbody.
Qed.

Lemma attendance_chain_parsed (students : value) (resp : response) (attData : value)
    (pg : page) :
  body resp = Parsed attData ->
  attendance_chain students (Responded resp) pg =
    match renderAttendanceTable students attData (attendanceTableBody pg) with
    | (Throw e, rows) => (Rejected (error_object e), set_rows rows pg)
    | (Normal _, rows) =>
        if has_records attData
        then (Fulfilled tt,
              set_buttons (lit "none") (lit "inline-block")
                (set_section (lit "block") (set_rows rows pg)))
        else (Fulfilled tt,
              set_buttons (lit "inline-block") (lit "none")
                (set_section (lit "block") (set_rows rows pg)))
    end.
Proof.
  intros Hbody. unfold Attendance.attendance_chain, then_, fetch_result, resp_json.
  by rewrite Hbody.
Qed.

Lemma ok_not_conflict (resp : response) : ok resp = true -> (status resp =? 409)%Z = false.
Proof. unfold ok. intros [_ H]%andb_prop. apply Z.leb_le in H. apply Z.eqb_neq. lia. Qed.

Lemma save_chain_accepted (x : exchange) (pg : page) :
  accepted x = true ->
  save_chain x pg
  = (Fulfilled tt,
     set_buttons (lit "none") (lit "inline-block")
       (showMessage (text "Yoklama başarıyla eklendi.") (lit "success") pg)).
Proof.
  destruct x as [err|resp]; [discriminate|]. cbn [accepted].
  intros [Hok Hbody]%andb_prop.
  unfold Attendance.save_chain, then_, catch_, fetch_result, resp_json.
  rewrite (ok_not_conflict _ Hok), Hok. cbn [negb].
  by destruct (body resp).
Qed.

Lemma save_chain_refused (x : exchange) (pg : page) :
  accepted x = false ->
  save_chain x pg =
    match plus (lit "Yoklama eklenemedi: ") (save_reason error_object x) with
    | Normal msg => (Fulfilled tt, showMessage msg (lit "danger") pg)
    | Throw e => (Rejected (error_object e), pg)
    end.
Proof.
  destruct x as [err|resp]; [reflexivity|]. cbn [accepted].
  unfold Attendance.save_chain, save_reason, then_, catch_, fetch_result, resp_json.
  destruct (status resp =? 409)%Z eqn:Hconflict.
  - intros _. destruct (body resp) as [data|err]; [|reflexivity].
    by destruct (Get data "error").
  - destruct (ok resp).
    + cbn [andb negb]. by destruct (body resp).
    + intros _. cbn [negb]. destruct (body resp) as [data|err]; [|reflexivity].
      by destruct (Get data "error").
Qed.

Lemma update_chain_accepted (x : exchange) (pg : page) :
  accepted x = true ->
  update_chain x pg
  = (Fulfilled tt,
     showMessage (text "Yoklama başarıyla güncellendi.") (lit "success") pg).
Proof.
  destruct x as [err|resp]; [discriminate|]. cbn [accepted].
  intros [Hok Hbody]%andb_prop.
  unfold Attendance.update_chain, then_, catch_, fetch_result, resp_json.
  rewrite Hok. cbn [negb]. by destruct (body resp).
Qed.

Lemma update_chain_refused (x : exchange) (pg : page) :
  accepted x = false ->
  update_chain x pg =
    match plus (text "Yoklama güncellenemedi: ") (update_reason error_object x) with
    | Normal msg => (Fulfilled tt, showMessage msg (lit "danger") pg)
    | Throw e => (Rejected (error_object e), pg)
    end.
Proof.
  destruct x as [err|resp]; [reflexivity|]. cbn [accepted].
  unfold Attendance.update_chain, update_reason, then_, catch_, fetch_result, resp_json.
  destruct (ok resp).
  - cbn [andb negb]. by destruct (body resp).
  - intros _. cbn [negb]. destruct (body resp) as [data|err]; [|reflexivity].
    by destruct (Get data "error").
Qed.

Lemma one_button_same (pg pg' : page) :
  saveButton_display pg' = saveButton_display pg ->
  updateButton_display pg' = updateButton_display pg ->
  one_button pg -> one_button pg'.
Proof. unfold one_button. by intros -> ->. Qed.

Lemma step_one_button (pg : page) (ev : event) : one_button pg -> one_button (step pg ev).
Proof.
  intros Hpg. destruct ev as [c d|x|c d l|c d l x|students x|x|x]; cbn [Attendance.step].
  - unfold updateLessonOptions. by destruct (_ || _).
  - destruct (schedule_chain_buttons x pg) as [Hs Hu]. by apply (one_button_same pg).
  - unfold load_click. by destruct (_ || _).
  - destruct (unread_cases x) as [(err & Herr)|(resp & data & -> & Hbody)].
    + rewrite (students_chain_caught c d l x err pg Herr). by destruct (plus _ err).
    + by rewrite (students_chain_parsed c d l resp data pg Hbody).
  - destruct (unread_cases x) as [(err & Herr)|(resp & data & -> & Hbody)].
    + by rewrite (attendance_chain_unread students x err pg Herr).
    + rewrite (attendance_chain_parsed students resp data pg Hbody).
      destruct (renderAttendanceTable _ _ _) as [[[]|e] rows]; [|exact Hpg].
      destruct (has_records data); [by left | by right].
  - destruct (accepted x) eqn:Hacc.
    + rewrite save_chain_accepted by done. by left.
    + rewrite save_chain_refused by done. by destruct (plus _ _).
  - destruct (accepted x) eqn:Hacc.
    + by rewrite update_chain_accepted.
    + rewrite update_chain_refused by done. by destruct (plus _ _).
Qed.

End Page.

(** The text of a counter: its digits, read back. *)
Lemma leading_digits_uint (d : Decimal.uint) (acc : N) :
  leading_digits acc (lit (NilEmpty.string_of_uint d))
  = N.of_nat (Nat.of_uint_acc d (N.to_nat acc)).
Proof.
  revert acc. induction d; intros acc; cbn [NilEmpty.string_of_uint Nat.of_uint_acc];
    [symmetry; apply N2Nat.id|..];
    (match goal with
     | |- context [lit (String ?c ?s)] =>
         let n := eval vm_compute in (N_of_ascii c) in
         change (lit (String c s)) with (n :: lit s)
     end;
     cbn [leading_digits];
     match goal with
     | |- context [if ?b then _ else _] =>
         let b' := eval vm_compute in b in change b with b'
     end;
     cbv iota; rewrite IHd, Nat.tail_mul_spec; f_equal; f_equal; lia).
Qed.

Lemma digits_uint (d : Decimal.uint) :
  Forall (fun c => (48 <= c <= 57)%N) (lit (NilEmpty.string_of_uint d)).
Proof.
  induction d; cbn [NilEmpty.string_of_uint]; [constructor|..];
    (match goal with
     | |- context [lit (String ?c ?s)] =>
         let n := eval vm_compute in (N_of_ascii c) in
         change (lit (String c s)) with (n :: lit s)
     end;
     constructor; [lia | exact IHd]).
Qed.

Lemma decimal_digits (i : nat) :
  Forall (fun c => (48 <= c <= 57)%N) (decimal i)
  /\ leading_digits 0 (decimal i) = N.of_nat i.
Proof.
  unfold decimal.
  assert (Hi : Nat.of_uint (Nat.to_uint i) = i) by apply DecimalNat.Unsigned.of_to.
  destruct (Nat.to_uint i) as [|d|d|d|d|d|d|d|d|d|d] eqn:Hd;
    [split; [repeat constructor; cbn; lia | by rewrite <- Hi]|..];
    (split; [apply (digits_uint (_ d))
            |rewrite <- Hi; apply (leading_digits_uint (_ d) 0)]).
Qed.

(** The loop passes [i] times for the integer [i], below 2^53. *)
Lemma passes_decimal (i : nat) :
  (N.of_nat i < MAX_COUNTER)%N -> passes (decimal i) = Some (N.of_nat i).
Proof.
  intros Hi. unfold passes.
  destruct (decimal_digits i) as [Hd Hlead]. rewrite Hlead.
  rewrite bool_decide_eq_false_2.
  2:{ destruct (decimal i) as [|c t]; [discriminate|]. cbn. intros [= ->].
      apply Forall_cons in Hd as [Hc _]. lia. }
  rewrite bool_decide_eq_false_2.
  2:{ destruct (decimal i) as [|c t]; [discriminate|]. cbn. intros [= ->].
      apply Forall_cons in Hd as [Hc _]. lia. }
  rewrite bool_decide_eq_false_2.
  2:{ intros Hin. rewrite Forall_forall in Hd. specialize (Hd _ Hin). lia. }
  apply N.ltb_lt in Hi. by rewrite Hi.
Qed.

Lemma numeric_upto_counts : counts_numbers numeric_upto.
Proof. intros n k Hk. cbn. by rewrite Hk. Qed.

Lemma length_is_positive_reads : reads_length length_is_positive.
Proof. intros attData len b Hlen Hb. unfold length_is_positive. by rewrite Hlen, Hb. Qed.

(** No schedule request without a class and a date: with either of them
    empty, [updateLessonOptions] only empties the lesson list; with both
    chosen it empties the list and fetches the schedule of that class and
    date, once. *)
Theorem lesson_list_needs_class_and_date (clsId dateStr : list N) (pg : page) :
  (clsId = [] \/ dateStr = [] ->
   updateLessonOptions clsId dateStr pg = set_options [] pg)
  /\ (clsId ≠ [] -> dateStr ≠ [] ->
      updateLessonOptions clsId dateStr pg
      = fetch_get (lit "/api/schedule?classroom_id=" ++ clsId ++ lit "&date=" ++ dateStr)
          (set_options [] pg)).
Proof.
  unfold updateLessonOptions. rewrite !truthy_string. split.
  - intros [-> | ->]; [reflexivity|]. by rewrite orb_true_r.
  - intros Hc Hd. by rewrite !bool_decide_eq_false_2.
Qed.

Lemma lesson_list_needs_class_and_date_witness :
  updateLessonOptions (lit "3") [] (set_options (lesson_options 2) blank_page)
  = set_options [] (set_options (lesson_options 2) blank_page)
  /\ updateLessonOptions (lit "3") (lit "2024-05-06") blank_page
     = fetch_get (lit "/api/schedule?classroom_id=" ++ lit "3" ++ lit "&date="
                    ++ lit "2024-05-06") (set_options [] blank_page).
Proof.
  split.
  - apply (proj1 (lesson_list_needs_class_and_date (lit "3") []
                    (set_options (lesson_options 2) blank_page))). by right.
  - apply (proj2 (lesson_list_needs_class_and_date (lit "3") (lit "2024-05-06")
                    blank_page)); discriminate.
Defined.

(** No students request without a class, a date and a lesson: with any of
    them empty, the load button only shows the warning; with all three chosen
    it fetches the students of the class and shows nothing. *)
Theorem load_needs_all_three (clsId dateStr lessonNo : list N) (pg : page) :
  (clsId = [] \/ dateStr = [] \/ lessonNo = [] ->
   load_click clsId dateStr lessonNo pg
   = showMessage (text "Lütfen sınıf, tarih ve ders numarası seçiniz.")
       (lit "warning") pg
   /\ fetched (load_click clsId dateStr lessonNo pg) = fetched pg)
  /\ (clsId ≠ [] -> dateStr ≠ [] -> lessonNo ≠ [] ->
      load_click clsId dateStr lessonNo pg
      = fetch_get (lit "/api/students?classroom_id=" ++ clsId) pg).
Proof.
  unfold load_click. rewrite !truthy_string. split.
  - intros [-> | [-> | ->]]; cbn [bool_decide negb orb];
      rewrite ?orb_true_r; by split.
  - intros Hc Hd Hl. by rewrite !bool_decide_eq_false_2.
Qed.

Lemma load_needs_all_three_witness :
  (load_click (lit "3") (lit "2024-05-06") [] blank_page
   = showMessage (text "Lütfen sınıf, tarih ve ders numarası seçiniz.")
       (lit "warning") blank_page
   /\ fetched (load_click (lit "3") (lit "2024-05-06") [] blank_page)
      = fetched blank_page)
  /\ load_click (lit "3") (lit "2024-05-06") (lit "1") blank_page
     = fetch_get (lit "/api/students?classroom_id=" ++ lit "3") blank_page.
Proof.
  split.
  - apply (proj1 (load_needs_all_three (lit "3") (lit "2024-05-06") [] blank_page)).
    right. by right.
  - apply (proj2 (load_needs_all_three (lit "3") (lit "2024-05-06") (lit "1")
                    blank_page)); discriminate.
Defined.

(** A schedule response is read for its lessons whatever its status. When
    [data.lessons] is a number other than zero and NaN for which the loop of
    lines 130-135 ends, the chain clears the message and appends one option
    per pass, numbered from 1, each with its number as value and text, after
    the options already in the list: as many as the integer part of the
    number, so [i] options for the integer [i] below 2^53, and none for a
    negative number or a fraction below 1. *)
Theorem schedule_lists_lessons (error_object : exn -> value) (upto : value -> nat)
    (resp : response) (data : value) (n : number) (pg : page) :
  counts_numbers upto ->
  body resp = Parsed data ->
  Get data "lessons" = Normal (VNumber n) ->
  zero_or_nan n = false ->
  (forall k : N,
      passes (number_text n) = Some k ->
      schedule_chain error_object upto (Responded resp) pg
      = (Fulfilled tt,
         set_options (lessonSelect_options pg ++ lesson_options (N.to_nat k))
           (clearMessage pg)))
  /\ (forall i : nat,
        number_text n = decimal i -> (N.of_nat i < MAX_COUNTER)%N ->
        schedule_chain error_object upto (Responded resp) pg
        = (Fulfilled tt,
           set_options (lessonSelect_options pg ++ lesson_options i)
             (clearMessage pg)))
  /\ (head (number_text n) = Some 45%N ->
      schedule_chain error_object upto (Responded resp) pg
      = (Fulfilled tt, clearMessage pg)).
Proof.
  intros Hupto Hbody Hget Hn.
  assert (Hpasses : forall k : N,
             passes (number_text n) = Some k ->
             schedule_chain error_object upto (Responded resp) pg
             = (Fulfilled tt,
                set_options (lessonSelect_options pg ++ lesson_options (N.to_nat k))
                  (clearMessage pg))).
  { intros k Hk.
    rewrite (schedule_lists_lessons_aux error_object upto resp data (VNumber n) pg
               Hbody Hget) by (cbn; by rewrite Hn).
    by rewrite (Hupto n k Hk). }
  split; [exact Hpasses|]. split.
  - intros i Htext Hi. specialize (Hpasses (N.of_nat i)).
    rewrite Nat2N.id in Hpasses. apply Hpasses.
    rewrite Htext. by apply passes_decimal.
  - intros Hminus. rewrite (Hpasses 0%N).
    + cbn [N.to_nat lesson_options seq fmap list_fmap]. rewrite app_nil_r.
      by destruct pg.
    + unfold passes. by rewrite bool_decide_eq_true_2.
Qed.

Lemma schedule_lists_lessons_witness :
  schedule_chain sample_error_object numeric_upto
    (Responded (Response 404 (Parsed (lessons_body 3))))
    (set_options (lesson_options 1) blank_page)
  = (Fulfilled tt,
     set_options
       (lessonSelect_options (set_options (lesson_options 1) blank_page)
          ++ lesson_options 3)
       (clearMessage (set_options (lesson_options 1) blank_page))).
Proof.
  apply (proj1 (proj2 (schedule_lists_lessons sample_error_object numeric_upto
                         (Response 404 (Parsed (lessons_body 3))) (lessons_body 3)
                         (Number false [51%N])
                         (set_options (lesson_options 1) blank_page)
                         numeric_upto_counts eq_refl eq_refl eq_refl)) 3).
  - reflexivity.
  - reflexivity.
Defined.

(** Two and a half lessons give two options, a negative count none. *)
Example fractional_and_negative_lessons :
  let body_of t := object_literal [("lessons", VNumber (Number false (lit t)))] in
  let options_of t :=
    lessonSelect_options
      (snd (schedule_chain sample_error_object numeric_upto
              (Responded (Response 200 (Parsed (body_of t)))) blank_page)) in
  options_of "2.5" = lesson_options 2
  /\ options_of "-3" = []
  /\ options_of "1e-7" = [].
Proof. repeat split; vm_compute; reflexivity. Qed.

(** The options of a three-lesson day. *)
Example three_lessons :
  lessonSelect_options
    (snd (schedule_chain sample_error_object sample_upto
            (Responded (Response 200 (Parsed (lessons_body 3)))) blank_page))
  = [OptionElement (lit "1") (lit "1"); OptionElement (lit "2") (lit "2");
     OptionElement (lit "3") (lit "3")].
Proof. vm_compute. reflexivity. Qed.

(** A body without a truthy [lessons] reads as a day without lessons,
    whatever the status: also the JSON body of an error response (a 404 or a
    500 with an error field) shows the no-lesson warning, not an error, and
    leaves the list as it is. *)
Theorem schedule_without_lessons_warns (error_object : exn -> value)
    (upto : value -> nat) (resp : response) (data lessons : value) (pg : page) :
  body resp = Parsed data ->
  Get data "lessons" = Normal lessons ->
  ToBoolean lessons = false ->
  schedule_chain error_object upto (Responded resp) pg
  = (Fulfilled tt,
     showMessage (text "Seçilen sınıf için belirtilen günde ders bulunmamaktadır.")
       (lit "warning") pg).
Proof.
  intros Hbody Hget Ht.
  by rewrite (schedule_chain_parsed _ _ resp data lessons pg Hbody Hget), Ht.
Qed.

Lemma schedule_without_lessons_warns_witness :
  schedule_chain sample_error_object sample_upto
    (Responded (Response 500
                  (Parsed (object_literal [("error", VString (lit "database down"))]))))
    blank_page
  = (Fulfilled tt,
     showMessage (text "Seçilen sınıf için belirtilen günde ders bulunmamaktadır.")
       (lit "warning") blank_page).
Proof.
  apply (schedule_without_lessons_warns sample_error_object sample_upto
           (Response 500
              (Parsed (object_literal [("error", VString (lit "database down"))])))
           (object_literal [("error", VString (lit "database down"))])
           VUndefined blank_page); reflexivity.
Defined.



(** A schedule request that fails is reported: when the request is
    rejected, the body is not JSON, or the body is null, and the reason
    converts to a string, the chain calls [showMessage] with the prefix
    followed by that string: the danger template around it, the string
    inserted as it is and unescaped, is what the chain assigns to
    [messageDiv.innerHTML]; the lesson list, the buttons and the request
    log stay as they are. *)
Theorem schedule_failure_shown (error_object : exn -> value) (upto : value -> nat)
    (x : exchange) (reason : value) (pg : page) :
  match x with
  | Unreachable err => reason = err
  | Responded resp =>
      match body resp with
      | Malformed err => reason = err
      | Parsed data => exists e, Get data "lessons" = Throw e /\ reason = error_object e
      end
  end ->
  printable reason ->
  exists detail : list N,
    String_ reason = Normal detail
    /\ schedule_chain error_object upto x pg
       = (Fulfilled tt,
          showMessage (text "Ders programı alınamadı: " ++ detail) (lit "danger") pg)
    /\ messageDiv_assigned (snd (schedule_chain error_object upto x pg))
       = danger_alert (text "Ders programı alınamadı: " ++ detail).
Proof.
  intros Hreason [detail Hdetail].
  rewrite (schedule_chain_caught error_object upto x reason pg Hreason), Hdetail.
  exists detail. split; [|split; [reflexivity|]].
  - specialize (Hdetail []). unfold plus in Hdetail.
    destruct reason; try discriminate;
      by destruct (String_ _); try injection Hdetail as ->.
  - exact (showMessage_danger _ pg).
Qed.

Lemma schedule_failure_shown_witness :
  exists detail : list N,
    String_ (sample_error_object TypeError) = Normal detail
    /\ schedule_chain sample_error_object sample_upto
         (Responded (Response 200 (Parsed VNull))) blank_page
       = (Fulfilled tt,
          showMessage (text "Ders programı alınamadı: " ++ detail) (lit "danger")
            blank_page)
    /\ messageDiv_assigned
         (snd (schedule_chain sample_error_object sample_upto
                 (Responded (Response 200 (Parsed VNull))) blank_page))
       = danger_alert (text "Ders programı alınamadı: " ++ detail).
Proof.
  apply (schedule_failure_shown sample_error_object sample_upto
           (Responded (Response 200 (Parsed VNull))) (sample_error_object TypeError)
           blank_page).
  - cbn [body]. exists TypeError. split; reflexivity.
  - exists (lit "TypeError"). reflexivity.
Defined.

(** The save chain reports success and swaps the buttons (save hidden,
    update shown) exactly for a 2xx response with a JSON body. For every
    other exchange, also a 2xx response whose body is not JSON, the reason
    that reaches the [catch] is [save_reason]: the rejection of the request
    or of [resp.json()], the body's error for a 409, the body's error or
    "Bilinmeyen hata" for another status, the engine's error for a null
    body. The chain then calls [showMessage] with "Yoklama eklenemedi: "
    followed by the string conversion of that reason, inserted as it is into
    the danger template assigned to [messageDiv.innerHTML]; when the
    conversion throws (a symbol, an object without one) it assigns nothing
    and ends rejected with the error thrown. In both cases the buttons, the
    lesson list and the request log stay as they are. *)
Theorem save_outcomes (error_object : exn -> value) (x : exchange) (pg : page) :
  (accepted x = true ->
   save_chain error_object x pg
   = (Fulfilled tt,
      set_buttons (lit "none") (lit "inline-block")
        (showMessage (text "Yoklama başarıyla eklendi.") (lit "success") pg)))
  /\ (accepted x = false ->
      save_chain error_object x pg
      = match plus (lit "Yoklama eklenemedi: ") (save_reason error_object x) with
        | Normal msg => (Fulfilled tt, showMessage msg (lit "danger") pg)
        | Throw e => (Rejected (error_object e), pg)
        end
      /\ (forall detail : list N,
             typeof (save_reason error_object x) <> "symbol" ->
             String_ (save_reason error_object x) = Normal detail ->
             save_chain error_object x pg
             = (Fulfilled tt,
                showMessage (lit "Yoklama eklenemedi: " ++ detail) (lit "danger") pg)
             /\ messageDiv_assigned (snd (save_chain error_object x pg))
                = danger_alert (lit "Yoklama eklenemedi: " ++ detail))
      /\ (typeof (save_reason error_object x) = "symbol"
          \/ String_ (save_reason error_object x) = Throw TypeError ->
          save_chain error_object x pg = (Rejected (error_object TypeError), pg))
      /\ saveButton_display (snd (save_chain error_object x pg)) = saveButton_display pg
      /\ updateButton_display (snd (save_chain error_object x pg))
         = updateButton_display pg
      /\ lessonSelect_options (snd (save_chain error_object x pg))
         = lessonSelect_options pg
      /\ fetched (snd (save_chain error_object x pg)) = fetched pg).
Proof.
  split; intros Hacc.
  - by rewrite save_chain_accepted.
  - rewrite save_chain_refused by done. split; [reflexivity|].
    split; [|split].
    + intros detail Hsym Hdetail. rewrite (plus_converts _ _ _ Hsym Hdetail).
      split; [reflexivity | exact (showMessage_danger _ pg)].
    + intros Hthrows. by rewrite (plus_throws _ _ Hthrows).
    + by destruct (plus _ _).
Qed.

(** A conflict is shown without the fallback text: for a 409 whose body
    carries a falsy error (or none, which reads as [undefined]) the message
    ends with that value's text, where every other refused status shows
    "Bilinmeyen hata". *)
Theorem save_conflict_has_no_fallback (error_object : exn -> value)
    (resp : response) (data err : value) (detail : list N) (pg : page) :
  body resp = Parsed data ->
  Get data "error" = Normal err ->
  ToBoolean err = false ->
  String_ err = Normal detail ->
  ok resp = false ->
  save_chain error_object (Responded resp) pg
  = (Fulfilled tt,
     showMessage
       (lit "Yoklama eklenemedi: "
          ++ (if (status resp =? 409)%Z then detail else lit "Bilinmeyen hata"))
       (lit "danger") pg).
Proof.
  intros Hbody Hget Hfalsy Hdetail Hok.
  rewrite save_chain_refused by (cbn; by rewrite Hok).
  unfold save_reason. rewrite Hbody, Hget.
  destruct (status resp =? 409)%Z.
  - unfold plus. rewrite Hdetail. by destruct err.
  - unfold or_. rewrite Hfalsy. reflexivity.
Qed.

Lemma save_conflict_has_no_fallback_witness :
  save_chain sample_error_object
    (Responded (Response 409 (Parsed (object_literal [])))) blank_page
  = (Fulfilled tt,
     showMessage
       (lit "Yoklama eklenemedi: "
          ++ (if (status (Response 409 (Parsed (object_literal []))) =? 409)%Z
              then lit "undefined" else lit "Bilinmeyen hata"))
       (lit "danger") blank_page).
Proof.
  apply (save_conflict_has_no_fallback sample_error_object
           (Response 409 (Parsed (object_literal []))) (object_literal [])
           VUndefined (lit "undefined") blank_page); reflexivity.
Defined.

(** The update chain never touches the buttons, the lesson list or the
    request log. It reports success exactly for a 2xx response with a JSON
    body. For every other exchange the reason that reaches the [catch] is
    [update_reason]: the rejection of the request or of [resp.json()], the
    body's error or "Bilinmeyen hata", the engine's error for a null body.
    The chain then calls [showMessage] with "Yoklama güncellenemedi: "
    followed by the string conversion of that reason, inserted as it is into
    the danger template assigned to [messageDiv.innerHTML]; when the
    conversion throws it assigns nothing and ends rejected with the error
    thrown. *)
Theorem update_outcomes (error_object : exn -> value) (x : exchange) (pg : page) :
  saveButton_display (snd (update_chain error_object x pg)) = saveButton_display pg
  /\ updateButton_display (snd (update_chain error_object x pg))
     = updateButton_display pg
  /\ lessonSelect_options (snd (update_chain error_object x pg))
     = lessonSelect_options pg
  /\ fetched (snd (update_chain error_object x pg)) = fetched pg
  /\ (accepted x = true ->
      update_chain error_object x pg
      = (Fulfilled tt,
         showMessage (text "Yoklama başarıyla güncellendi.") (lit "success") pg))
  /\ (accepted x = false ->
      update_chain error_object x pg
      = match plus (text "Yoklama güncellenemedi: ") (update_reason error_object x) with
        | Normal msg => (Fulfilled tt, showMessage msg (lit "danger") pg)
        | Throw e => (Rejected (error_object e), pg)
        end
      /\ (forall detail : list N,
             typeof (update_reason error_object x) <> "symbol" ->
             String_ (update_reason error_object x) = Normal detail ->
             update_chain error_object x pg
             = (Fulfilled tt,
                showMessage (text "Yoklama güncellenemedi: " ++ detail)
                  (lit "danger") pg)
             /\ messageDiv_assigned (snd (update_chain error_object x pg))
                = danger_alert (text "Yoklama güncellenemedi: " ++ detail))
      /\ (typeof (update_reason error_object x) = "symbol"
          \/ String_ (update_reason error_object x) = Throw TypeError ->
          update_chain error_object x pg = (Rejected (error_object TypeError), pg))).
Proof.
  destruct (accepted x) eqn:Hacc.
  - rewrite update_chain_accepted by done.
    repeat (split; [reflexivity|]). discriminate.
  - rewrite update_chain_refused by done.
    do 4 (split; [by destruct (plus _ _)|]).
    split; [discriminate|]. intros _. split; [reflexivity|]. split.
    + intros detail Hsym Hdetail. rewrite (plus_converts _ _ _ Hsym Hdetail).
      split; [reflexivity | exact (showMessage_danger _ pg)].
    + intros Hthrows. by rewrite (plus_throws _ _ Hthrows).
Qed.

(** A students response is read whatever its status: as soon as its body
    is JSON, also that of an error response, the chain shows nothing and goes
    on to request the attendance of the class, date and lesson. *)
Theorem students_status_is_ignored (error_object : exn -> value)
    (clsId dateStr lessonNo : list N) (resp : response) (students : value)
    (pg : page) :
  body resp = Parsed students ->
  students_chain error_object clsId dateStr lessonNo (Responded resp) pg
  = (Fulfilled tt,
     fetch_get (lit "/api/attendance?classroom_id=" ++ clsId ++ lit "&date="
                  ++ dateStr ++ lit "&lesson_no=" ++ lessonNo) pg).
Proof. apply students_chain_parsed. Qed.

Lemma students_status_is_ignored_witness :
  students_chain sample_error_object (lit "3") (lit "2024-05-06") (lit "1")
    (Responded (Response 500
                  (Parsed (object_literal [("error", VString (lit "database down"))]))))
    blank_page
  = (Fulfilled tt,
     fetch_get (lit "/api/attendance?classroom_id=" ++ lit "3" ++ lit "&date="
                  ++ lit "2024-05-06" ++ lit "&lesson_no=" ++ lit "1") blank_page).
Proof.
  apply (students_status_is_ignored sample_error_object (lit "3") (lit "2024-05-06")
           (lit "1")
           (Response 500
              (Parsed (object_literal [("error", VString (lit "database down"))])))
           (object_literal [("error", VString (lit "database down"))]) blank_page).
  reflexivity.
Defined.

(** A failed attendance request is silent where a failed students request
    is reported: when the request is rejected or the body is not JSON, the
    attendance chain changes nothing on the page, assigns nothing to the
    message box and ends rejected with nobody to catch it, while the
    students chain calls [showMessage] with its prefix followed by the
    reason's text, which the danger template assigned to
    [messageDiv.innerHTML] holds as it is, unescaped. *)
Theorem attendance_failure_is_silent (error_object : exn -> value)
    (has_records : value -> bool)
    (renderAttendanceTable : value -> value -> list value
                             -> completion unit * list value)
    (clsId dateStr lessonNo : list N) (students : value) (x : exchange)
    (err : value) (detail : list N) (pg : page) :
  (x = Unreachable err
   \/ exists resp, x = Responded resp /\ body resp = Malformed err) ->
  (forall prefix, plus prefix err = Normal (prefix ++ detail)) ->
  attendance_chain error_object has_records renderAttendanceTable students x pg
  = (Rejected err, pg)
  /\ students_chain error_object clsId dateStr lessonNo x pg
     = (Fulfilled tt,
        showMessage (text "Öğrenciler yüklenirken hata oluştu: " ++ detail)
          (lit "danger") pg)
  /\ messageDiv_assigned (snd (students_chain error_object clsId dateStr lessonNo x pg))
     = danger_alert (text "Öğrenciler yüklenirken hata oluştu: " ++ detail).
Proof.
  intros Hx Hdetail.
  assert (Hunread : fetch_result x = Rejected err
                    \/ exists resp, x = Responded resp /\ body resp = Malformed err).
  { destruct Hx as [->|Hx]; [by left | by right]. }
  split; [by apply attendance_chain_unread|].
  rewrite (students_chain_caught error_object _ _ _ x err pg Hunread), Hdetail.
  split; [reflexivity|]. exact (showMessage_danger _ pg).
Qed.

Lemma attendance_failure_is_silent_witness :
  attendance_chain sample_error_object (fun _ => true) sample_render VNull
    (Unreachable (VString (lit "offline"))) blank_page
  = (Rejected (VString (lit "offline")), blank_page)
  /\ students_chain sample_error_object (lit "3") (lit "2024-05-06") (lit "1")
       (Unreachable (VString (lit "offline"))) blank_page
     = (Fulfilled tt,
        showMessage (text "Öğrenciler yüklenirken hata oluştu: " ++ lit "offline")
          (lit "danger") blank_page)
  /\ messageDiv_assigned
       (snd (students_chain sample_error_object (lit "3") (lit "2024-05-06") (lit "1")
               (Unreachable (VString (lit "offline"))) blank_page))
     = danger_alert (text "Öğrenciler yüklenirken hata oluştu: " ++ lit "offline").
Proof.
  apply (attendance_failure_is_silent sample_error_object (fun _ => true) sample_render
           (lit "3") (lit "2024-05-06") (lit "1") VNull
           (Unreachable (VString (lit "offline"))) (VString (lit "offline"))
           (lit "offline") blank_page).
  - by left.
  - reflexivity.
Defined.

(** A loaded attendance shows exactly one button. When the table code of
    lines 158-163 returns, the section is displayed and the test
    [attData.length > 0] of line 166 decides: the update button alone is
    visible when the length of the response is a number greater than zero
    (an array that holds a record), the save button alone when it is zero,
    negative, NaN or undefined (an empty array, an object without a length).
    When the table code throws, the section and the buttons stay as they
    were and the rejection is left unhandled. In every case nothing is
    assigned to the message box and nothing is fetched. *)
Theorem load_shows_one_button (error_object : exn -> value)
    (has_records : value -> bool)
    (renderAttendanceTable : value -> value -> list value
                             -> completion unit * list value)
    (students : value) (resp : response) (attData len : value) (records : bool)
    (pg : page) :
  reads_length has_records ->
  body resp = Parsed attData ->
  length_of attData = Normal len ->
  greater_than_zero len = Some records ->
  let chain := attendance_chain error_object has_records renderAttendanceTable in
  let pg' := snd (chain students (Responded resp) pg) in
  match chain students (Responded resp) pg with
  | (Fulfilled _, _) =>
      attendanceSection_display pg' = lit "block"
      /\ saveButton_display pg'
         = (if records then lit "none" else lit "inline-block")
      /\ updateButton_display pg'
         = (if records then lit "inline-block" else lit "none")
  | (Rejected _, _) =>
      attendanceSection_display pg' = attendanceSection_display pg
      /\ saveButton_display pg' = saveButton_display pg
      /\ updateButton_display pg' = updateButton_display pg
  end
  /\ (fst (renderAttendanceTable students attData (attendanceTableBody pg))
      = Normal tt <-> fst (chain students (Responded resp) pg) = Fulfilled tt)
  /\ messageDiv_assigned pg' = messageDiv_assigned pg
  /\ fetched pg' = fetched pg.
Proof.
  intros Hreads Hbody Hlen Hrecords chain pg'. subst chain pg'.
  rewrite (attendance_chain_parsed error_object has_records renderAttendanceTable
             students resp attData pg Hbody).
  rewrite (Hreads attData len records Hlen Hrecords).
  destruct (renderAttendanceTable _ _ _) as [[[]|e] rows]; cbn [fst].
  - by destruct records.
  - repeat split; discriminate.
Qed.

Lemma load_shows_one_button_witness :
  let students := array [sample_student] (lit "[object Object]") in
  let attData := array [sample_record] (lit "[object Object]") in
  let chain := attendance_chain sample_error_object length_is_positive sample_table in
  let pg' := snd (chain students (Responded (Response 200 (Parsed attData))) blank_page) in
  match chain students (Responded (Response 200 (Parsed attData))) blank_page with
  | (Fulfilled _, _) =>
      attendanceSection_display pg' = lit "block"
      /\ saveButton_display pg' = (if true then lit "none" else lit "inline-block")
      /\ updateButton_display pg' = (if true then lit "inline-block" else lit "none")
  | (Rejected _, _) =>
      attendanceSection_display pg' = attendanceSection_display blank_page
      /\ saveButton_display pg' = saveButton_display blank_page
      /\ updateButton_display pg' = updateButton_display blank_page
  end
  /\ (fst (sample_table students attData (attendanceTableBody blank_page))
      = Normal tt
      <-> fst (chain students (Responded (Response 200 (Parsed attData))) blank_page)
          = Fulfilled tt)
  /\ messageDiv_assigned pg' = messageDiv_assigned blank_page
  /\ fetched pg' = fetched blank_page.
Proof.
  cbv zeta.
  apply (load_shows_one_button sample_error_object length_is_positive sample_table
           (array [sample_student] (lit "[object Object]"))
           (Response 200 (Parsed (array [sample_record] (lit "[object Object]"))))
           (array [sample_record] (lit "[object Object]"))
           (VNumber (Number false (lit "1"))) true blank_page
           length_is_positive_reads eq_refl eq_refl eq_refl).
Defined.

(** The buttons after a load: update alone for one record, save alone for
    none, and neither touched when the body is no array. *)
Example buttons_after_load :
  let students := array [sample_student] (lit "[object Object]") in
  let loaded attData :=
    snd (attendance_chain sample_error_object length_is_positive sample_table students
           (Responded (Response 200 (Parsed attData))) blank_page) in
  let buttons pg := (saveButton_display pg, updateButton_display pg) in
  buttons (loaded (array [sample_record] (lit "[object Object]")))
  = (lit "none", lit "inline-block")
  /\ buttons (loaded (array [] [])) = (lit "inline-block", lit "none")
  /\ buttons (loaded (object_literal [("error", VString (lit "no such class"))]))
     = (lit "none", lit "none").
Proof. repeat split; vm_compute; reflexivity. Qed.

(** The two buttons are never both visible: from a page where at least one
    of them is hidden, whatever listeners run and requests settle, in whatever
    order and with whatever outcome, at least one of them stays hidden. *)
Theorem buttons_never_both_visible (error_object : exn -> value)
    (upto : value -> nat) (has_records : value -> bool)
    (renderAttendanceTable : value -> value -> list value
                             -> completion unit * list value)
    (events : list event) (pg : page) :
  one_button pg ->
  one_button (foldl (step error_object upto has_records renderAttendanceTable)
                pg events).
Proof.
  revert pg. induction events as [|ev events IH]; intros pg Hpg; [exact Hpg|].
  cbn [foldl]. apply IH. by apply step_one_button.
Qed.

Lemma buttons_never_both_visible_witness :
  one_button
    (foldl (step sample_error_object sample_upto (fun _ => false) sample_render)
       blank_page
       [LoadClicked (lit "3") (lit "2024-05-06") (lit "1");
        AttendanceSettled (VString (lit "students"))
          (Responded (Response 200 (Parsed (VString (lit "records")))));
        SaveSettled (Responded (Response 201 (Parsed (object_literal []))))]).
Proof.
  apply (buttons_never_both_visible sample_error_object sample_upto (fun _ => false)
           sample_render).
  by left.
Defined.

(** The buttons along that run: save alone after the load, update alone
    after the save. *)
Example buttons_after_load_and_save :
  let run := foldl (step sample_error_object sample_upto (fun _ => false) sample_render)
               blank_page in
  let loaded :=
    [LoadClicked (lit "3") (lit "2024-05-06") (lit "1");
     AttendanceSettled (VString (lit "students"))
       (Responded (Response 200 (Parsed (VString (lit "records")))))] in
  (saveButton_display (run loaded), updateButton_display (run loaded))
  = (lit "inline-block", lit "none")
  /\ (saveButton_display
        (run (loaded ++ [SaveSettled (Responded (Response 201
                                                   (Parsed (object_literal []))))])),
      updateButton_display
        (run (loaded ++ [SaveSettled (Responded (Response 201
                                                   (Parsed (object_literal []))))])))
     = (lit "none", lit "inline-block").
Proof. split; vm_compute; reflexivity. Qed.

Lemma save_outcomes_witness :
  save_chain sample_error_object
    (Responded (Response 201 (Parsed (object_literal [])))) blank_page
  = (Fulfilled tt,
     set_buttons (lit "none") (lit "inline-block")
       (showMessage (text "Yoklama başarıyla eklendi.") (lit "success") blank_page))
  /\ (save_chain sample_error_object
        (Responded (Response 204 (Malformed (VString (lit "SyntaxError"))))) blank_page
      = (Fulfilled tt,
         showMessage (lit "Yoklama eklenemedi: " ++ lit "SyntaxError") (lit "danger")
           blank_page)
      /\ messageDiv_assigned
           (snd (save_chain sample_error_object
                   (Responded (Response 204 (Malformed (VString (lit "SyntaxError")))))
                   blank_page))
         = danger_alert (lit "Yoklama eklenemedi: " ++ lit "SyntaxError")).
Proof.
  split.
  - apply (proj1 (save_outcomes sample_error_object
                    (Responded (Response 201 (Parsed (object_literal []))))
                    blank_page)). reflexivity.
  - apply (proj1 (proj2 (proj2 (save_outcomes sample_error_object
                                  (Responded (Response 204
                                                (Malformed (VString (lit "SyntaxError")))))
                                  blank_page) eq_refl)) (lit "SyntaxError")).
    + discriminate.
    + reflexivity.
Defined.

Lemma update_outcomes_witness :
  update_chain sample_error_object
    (Responded (Response 200 (Parsed (object_literal [])))) blank_page
  = (Fulfilled tt,
     showMessage (text "Yoklama başarıyla güncellendi.") (lit "success") blank_page)
  /\ (update_chain sample_error_object
        (Responded (Response 500
                      (Parsed (object_literal
                                 [("error", VString (lit "database down"))]))))
        blank_page
      = (Fulfilled tt,
         showMessage (text "Yoklama güncellenemedi: " ++ lit "database down")
           (lit "danger") blank_page)
      /\ messageDiv_assigned
           (snd (update_chain sample_error_object
                   (Responded (Response 500
                                 (Parsed (object_literal
                                            [("error", VString (lit "database down"))]))))
                   blank_page))
         = danger_alert (text "Yoklama güncellenemedi: " ++ lit "database down")).
Proof.
  pose proof (update_outcomes sample_error_object
                (Responded (Response 200 (Parsed (object_literal [])))) blank_page)
    as (_ & _ & _ & _ & Haccepted & _).
  pose proof (update_outcomes sample_error_object
                (Responded (Response 500
                              (Parsed (object_literal
                                         [("error", VString (lit "database down"))]))))
                blank_page)
    as (_ & _ & _ & _ & _ & Hrefused).
  split.
  - apply Haccepted. reflexivity.
  - apply (proj1 (proj2 (Hrefused eq_refl)) (lit "database down")).
    + discriminate.
    + reflexivity.
Defined.
